(** * make_header: the blog header generator, embedded and verified

    A shallow embedding of [scripts/make_header.py].  Python [int] is [Z],
    [str] is [string] (characters are code points below 256; in that range
    the regex class [\d] is exactly [0-9]), lists are [list], exceptions are
    an error result, and the outside world (the posts directory, the clock)
    is an explicit argument. *)

From Stdlib Require Import ZArith List Bool Ascii String Lia.
From Stdlib Require Import Permutation Sorted QArith.
From Stdlib Require Import DecimalString DecimalZ.
From Equations Require Import Equations.
Import ListNotations.

Open Scope bool_scope.
Open Scope string_scope.
Open Scope Z_scope.

(** * The program *)

(** ** Exceptions and results *)

Inductive exn : Type :=
| ValueError
| IndexError
| AttributeError
| FileNotFoundError.

Inductive result (A : Type) : Type :=
| Ok (a : A)
| Raise (e : exn).

Arguments Ok {A} a.
Arguments Raise {A} e.

Definition bind {A B : Type} (r : result A) (k : A -> result B) : result B :=
  match r with
  | Ok a => k a
  | Raise e => Raise e
  end.

Notation "x <- r ;; k" := (bind r (fun x => k))
  (at level 61, r at next level, right associativity).

(** A list comprehension whose body may raise: the first exception, in
    iteration order, aborts it. *)
Fixpoint comprehension {A B : Type} (f : A -> result B) (l : list A)
  : result (list B) :=
  match l with
  | [] => Ok []
  | a :: l' => b <- f a ;; bs <- comprehension f l' ;; Ok (b :: bs)
  end.

(** ** Characters and strings *)

Definition code (c : ascii) : Z := Z.of_N (N_of_ascii c).

Definition char_of (n : Z) : ascii := ascii_of_N (Z.to_N n).

Definition in_range (lo hi c : ascii) : bool :=
  (code lo <=? code c) && (code c <=? code hi).

(** [\d] *)
Definition is_digit (c : ascii) : bool := in_range "0" "9" c.

Definition digit_val (c : ascii) : Z := code c - 48.

Definition digit_char (v : Z) : ascii := char_of (v + 48).

Definition newline : ascii := "010"%char.

(** [str.isspace] on one character: TAB, LF, VT, FF, CR, the four
    separators 0x1c-0x1f, SPACE, NEL and NO-BREAK SPACE. *)
Definition is_space (c : ascii) : bool :=
  let n := code c in
  ((9 <=? n) && (n <=? 13)) || ((28 <=? n) && (n <=? 32))
  || (n =? 133) || (n =? 160).

Fixpoint lstrip (s : string) : string :=
  match s with
  | "" => ""
  | String c s' => if is_space c then lstrip s' else s
  end.

Fixpoint rstrip (s : string) : string :=
  match s with
  | "" => ""
  | String c s' =>
      match rstrip s' with
      | "" => if is_space c then "" else String c ""
      | r => String c r
      end
  end.

(** [s.strip()] *)
Definition strip (s : string) : string := rstrip (lstrip s).

(** [pat in s] *)
Fixpoint contains (pat s : string) : bool :=
  prefix pat s ||
  match s with
  | "" => false
  | String _ s' => contains pat s'
  end.

(** [re.sub(pat, '', s)] for a pattern without metacharacters: scanning
    left to right, every match is dropped and the scan resumes behind it.
    [skip] counts the characters of the current match still to drop. *)
Fixpoint re_sub_del (pat : string) (skip : nat) (s : string) : string :=
  match s with
  | "" => ""
  | String c s' =>
      match skip with
      | S k => re_sub_del pat k s'
      | O =>
          if prefix pat s
          then re_sub_del pat (String.length pat - 1) s'
          else String c (re_sub_del pat 0 s')
      end
  end.

(** Truthiness of a [str]. *)
Definition nonempty (s : string) : bool :=
  match s with
  | "" => false
  | _ => true
  end.

(** ** date_match *)

(** The atoms of [r'\d{4}-\d{2}-\d{2}']. *)
Inductive atom : Type :=
| Digit
| Lit (c : ascii).

Definition atom_matches (a : atom) (c : ascii) : bool :=
  match a with
  | Digit => is_digit c
  | Lit c' => Ascii.eqb c c'
  end.

(** [re.match] of a sequence of atoms: anchored at the start of the string,
    free at its end; the result is the match's [group()]. *)
Fixpoint re_match (pat : list atom) (s : string) : option string :=
  match pat with
  | [] => Some ""
  | a :: pat' =>
      match s with
      | "" => None
      | String c s' =>
          if atom_matches a c
          then option_map (String c) (re_match pat' s')
          else None
      end
  end.

Definition date_pattern : list atom :=
  repeat Digit 4 ++ [Lit "-"] ++ repeat Digit 2 ++ [Lit "-"] ++ repeat Digit 2.

Definition date_match (date_str : string) : option string :=
  re_match date_pattern date_str.

(** Truthiness of a match object or [None]. *)
Definition matched (m : option string) : bool :=
  match m with
  | Some _ => true
  | None => false
  end.

(** ** The posts directory *)

(** What the script sees of the disk: the entry names of a directory, in
    the order [os.listdir] gives them, and the text of a file as a file
    object opened with mode ['r'] delivers it (decoded, every line end a
    single LF); [None] where the path cannot be listed or opened. *)
Record filesystem : Type := {
  dir_entries : string -> option (list string);
  file_text : string -> option string
}.

Definition os_listdir (fs : filesystem) (path : string)
  : result (list string) :=
  match dir_entries fs path with
  | Some l => Ok l
  | None => Raise FileNotFoundError
  end.

Definition default_post_path : string := "_posts/".

Definition list_posts (fs : filesystem) (post_path : string)
  : result (list string) :=
  post_list <- os_listdir fs post_path ;;
  Ok (filter (fun post => matched (date_match post)) post_list).

(** ** Dates *)

Record datetime : Type := {
  year : Z;
  month : Z;
  day : Z;
  hour : Z;
  minute : Z;
  second : Z;
  microsecond : Z
}.

Definition is_leap (y : Z) : bool :=
  (y mod 4 =? 0) && (negb (y mod 100 =? 0) || (y mod 400 =? 0)).

Definition days_in_month (y m : Z) : Z :=
  if m =? 2 then (if is_leap y then 29 else 28)
  else if (m =? 4) || (m =? 6) || (m =? 9) || (m =? 11) then 30
  else 31.

(** The constructor [datetime(y, m, d)]: years 1 to 9999, a month of the
    year, a day of that month. *)
Definition make_date (y m d : Z) : result datetime :=
  if (1 <=? y) && (y <=? 9999) && (1 <=? m) && (m <=? 12)
     && (1 <=? d) && (d <=? days_in_month y m)
  then Ok {| year := y; month := m; day := d;
             hour := 0; minute := 0; second := 0; microsecond := 0 |}
  else Raise ValueError.

(** The three directives of ['%Y-%m-%d'] as [strptime] reads them; each
    returns the number read and the rest of the input.
    [%Y] is [\d\d\d\d]. *)
Definition read_Y (s : string) : option (Z * string) :=
  match s with
  | String a (String b (String c (String d r))) =>
      if is_digit a && is_digit b && is_digit c && is_digit d
      then Some (1000 * digit_val a + 100 * digit_val b
                 + 10 * digit_val c + digit_val d, r)
      else None
  | _ => None
  end.

(** [%m] is [1[0-2]|0[1-9]|[1-9]], alternatives tried in this order.  A
    literal [-] follows in the format, so once a two-character alternative
    has matched, the one-character one cannot succeed in its place. *)
Definition read_m (s : string) : option (Z * string) :=
  match s with
  | String a r =>
      match r with
      | String b r' =>
          if Ascii.eqb a "1" && in_range "0" "2" b
          then Some (10 + digit_val b, r')
          else if Ascii.eqb a "0" && in_range "1" "9" b
          then Some (digit_val b, r')
          else if in_range "1" "9" a then Some (digit_val a, r)
          else None
      | "" => if in_range "1" "9" a then Some (digit_val a, r) else None
      end
  | "" => None
  end.

(** [%d] is [3[0-1]|[1-2]\d|0[1-9]|[1-9]| [1-9]]; it ends the format, so
    the first alternative that matches is the one taken. *)
Definition read_d (s : string) : option (Z * string) :=
  match s with
  | String a r =>
      match r with
      | String b r' =>
          if Ascii.eqb a "3" && in_range "0" "1" b
          then Some (30 + digit_val b, r')
          else if in_range "1" "2" a && is_digit b
          then Some (10 * digit_val a + digit_val b, r')
          else if Ascii.eqb a "0" && in_range "1" "9" b
          then Some (digit_val b, r')
          else if in_range "1" "9" a then Some (digit_val a, r)
          else if Ascii.eqb a " " && in_range "1" "9" b
          then Some (digit_val b, r')
          else None
      | "" => if in_range "1" "9" a then Some (digit_val a, r) else None
      end
  | "" => None
  end.

Definition read_dash (s : string) : option string :=
  match s with
  | String c r => if Ascii.eqb c "-" then Some r else None
  | "" => None
  end.

(** [dt.datetime.strptime(s, '%Y-%m-%d')]: the whole of [s] must be
    consumed, and the fields must name a day of the calendar. *)
Definition strptime_ymd (s : string) : result datetime :=
  match read_Y s with
  | None => Raise ValueError
  | Some (y, s1) =>
      match read_dash s1 with
      | None => Raise ValueError
      | Some s2 =>
          match read_m s2 with
          | None => Raise ValueError
          | Some (m, s3) =>
              match read_dash s3 with
              | None => Raise ValueError
              | Some s4 =>
                  match read_d s4 with
                  | Some (d, "") => make_date y m d
                  | _ => Raise ValueError
                  end
              end
          end
      end
  end.

(** [m.group()] on the result of [date_match]: [None] has no [group]. *)
Definition group (m : option string) : result string :=
  match m with
  | Some g => Ok g
  | None => Raise AttributeError
  end.

Definition extract_dates (post_list : list string) : result (list datetime) :=
  comprehension (fun post => g <- group (date_match post) ;; strptime_ymd g)
                post_list.

(** ** Day differences *)

Definition days_before_year (y : Z) : Z :=
  let y' := y - 1 in y' * 365 + y' / 4 - y' / 100 + y' / 400.

Definition py_range (start stop : Z) : list Z :=
  map (fun i => start + Z.of_nat i) (seq 0 (Z.to_nat (stop - start))).

Definition days_before_month (y m : Z) : Z :=
  fold_left Z.add (map (days_in_month y) (py_range 1 m)) 0.

Definition toordinal (d : datetime) : Z :=
  days_before_year (year d) + days_before_month (year d) (month d) + day d.

Definition microseconds_of (d : datetime) : Z :=
  (((toordinal d * 24 + hour d) * 60 + minute d) * 60 + second d) * 1000000
  + microsecond d.

(** [(date - compare_date).days]: a [timedelta] is normalised with
    non-negative seconds and microseconds, so its days are the floor. *)
Definition delta_days (date compare_date : datetime) : Z :=
  (microseconds_of date - microseconds_of compare_date) / 86400000000.

Definition timedelta_dates (date_list : list datetime) (compare_date : datetime)
  : list Z :=
  map (fun date => delta_days date compare_date) date_list.

(** ** Titles *)

(** [f.readline()] on the text still unread: the line up to and including
    its newline (or up to the end of the text) and the text left; [""] at
    the end. *)
Fixpoint readline (f : string) : string * string :=
  match f with
  | "" => ("", "")
  | String c f' =>
      if Ascii.eqb c newline then (String c "", f')
      else let (l, r) := readline f' in (String c l, r)
  end.

(** The [while line:] loop of [extract_title], on its three variables; the
    result is [line] when the loop is left. *)
Equations? title_loop (line : string) (cnt : Z) (f : string) : string
  by wf (String.length line + String.length f)%nat lt :=
  title_loop "" cnt f := "";
  title_loop (String c l) cnt f
    with contains "title:" (String c l) || (10 <? cnt) => {
    | true := String c l;
    | false := title_loop (fst (readline f)) (cnt + 1) (snd (readline f)) }.
Proof.
  assert (Hlen : forall t : string,
             (String.length (fst (readline t)) + String.length (snd (readline t))
              = String.length t)%nat).
  { induction t as [|a t IH]; simpl; [reflexivity|].
    destruct (Ascii.eqb a newline); simpl; [reflexivity|].
    destruct (readline t) as [l' r]; simpl in *. lia. }
  rewrite Hlen. simpl. lia.
Qed.

(** The body of [extract_title] on the text of the opened file. *)
Definition title_of_text (text : string) : string :=
  let (line0, f) := readline text in
  let line := title_loop line0 0 f in
  let line := if negb (contains "title:" line) then "UH OH!" else line in
  re_sub_del "title: " 0 (strip line).

(** [a.endswith('/')] *)
Definition ends_with_slash (a : string) : bool :=
  match get (Nat.pred (String.length a)) a with
  | Some c => Ascii.eqb c "/"
  | None => false
  end.

(** [os.path.join(a, p)] *)
Definition os_path_join (a p : string) : string :=
  if prefix "/" p then p
  else if negb (nonempty a) || ends_with_slash a then a ++ p
  else a ++ "/" ++ p.

Definition default_base_dir : string := "_posts/".

Definition extract_title (fs : filesystem) (post base_dir : string)
  : result string :=
  match file_text fs (os_path_join base_dir post) with
  | None => Raise FileNotFoundError
  | Some text => Ok (title_of_text text)
  end.

Definition extract_titles (fs : filesystem) (post_list : list string)
  : result (list string) :=
  comprehension (fun post => extract_title fs post default_base_dir) post_list.

(** ** filter_titles *)

(** One round of the [for] loop: both lists grow at their ends. *)
Definition filter_step (cutoff : Z) (st : list string * list Z)
  (p : string * Z) : list string * list Z :=
  let '(filtered_titles, filtered_deltas) := st in
  let '(title, delta) := p in
  if cutoff <? delta
  then ((filtered_titles ++ [title])%list,
        (filtered_deltas ++ [delta + 1])%list)
  else st.

Definition filter_loop (post_titles : list string) (deltas : list Z)
  (cutoff : Z) : list string * list Z :=
  fold_left (filter_step cutoff) (combine post_titles deltas) ([], []).

(** [sorted(l, key=key)] is a stable sort; by insertion, an element going
    in front of the first one whose key is not smaller. *)
Fixpoint insert_by {A : Type} (key : A -> Z) (x : A) (l : list A) : list A :=
  match l with
  | [] => [x]
  | y :: l' => if key x <=? key y then x :: l else y :: insert_by key x l'
  end.

Fixpoint sorted {A : Type} (key : A -> Z) (l : list A) : list A :=
  match l with
  | [] => []
  | x :: l' => insert_by key x (sorted key l')
  end.

(** The tuples that [zip] yields from the unpacked list of pairs: none for
    no pair at all, otherwise one of titles and one of offsets. *)
Inductive column : Type :=
| Titles (l : list string)
| Deltas (l : list Z).

Definition zip_star (pairs : list (string * Z)) : list column :=
  match pairs with
  | [] => []
  | _ => [Titles (map fst pairs); Deltas (map snd pairs)]
  end.

(** [filtered_titles, filtered_deltas = [...]]: exactly two values. *)
Definition unpack2 (cols : list column) : result (list string * list Z) :=
  match cols with
  | [Titles a; Deltas b] => Ok (a, b)
  | _ => Raise ValueError
  end.

Definition default_cutoff : Z := -30.

Definition filter_titles (post_titles : list string) (deltas : list Z)
  (cutoff : Z) : result (list string * list Z) :=
  let '(filtered_titles, filtered_deltas) :=
    filter_loop post_titles deltas cutoff in
  let sorted_pairs := sorted snd (combine filtered_titles filtered_deltas) in
  let tuples := zip_star sorted_pairs in
  unpack2 tuples.

(** ** Numbers and text *)

(** [str(n)] *)
Definition py_str (n : Z) : string := NilZero.string_of_int (Z.to_int n).

(** [int(s)] on an optional sign followed by decimal digits, the only
    shape [line_plot] builds; anything else is a [ValueError] here (the
    blanks and underscores [int] also tolerates are not modelled). *)
Definition py_int (s : string) : result Z :=
  let '(sign, digits) :=
    match s with
    | String "+" r => (1, r)
    | String "-" r => (-1, r)
    | _ => (1, s)
    end in
  match NilZero.uint_of_string digits with
  | Some d => Ok (sign * Z.of_uint d)
  | None => Raise ValueError
  end.

(** [len(l)] *)
Definition len {A : Type} (l : list A) : Z := Z.of_nat (List.length l).

(** [max(l)]: there is no maximum of nothing. *)
Definition py_max (l : list Z) : result Z :=
  match l with
  | [] => Raise ValueError
  | x :: l' => Ok (fold_left Z.max l' x)
  end.

(** ** Counter *)

(** A [Counter] keeps its keys in the order they were first counted. *)
Definition counter : Type := list (Z * Z).

Fixpoint counter_incr (x : Z) (c : counter) : counter :=
  match c with
  | [] => [(x, 1)]
  | (k, v) :: c' => if k =? x then (k, v + 1) :: c' else (k, v) :: counter_incr x c'
  end.

Definition Counter (l : list Z) : counter :=
  fold_left (fun c x => counter_incr x c) l [].

(** [c[x]]: a missing key counts 0 and is not added. *)
Fixpoint counter_get (c : counter) (x : Z) : Z :=
  match c with
  | [] => 0
  | (k, v) :: c' => if k =? x then v else counter_get c' x
  end.

(** ** line_plot *)

Record annotation : Type := {
  ann_text : string;
  ann_xy : Z * Z;
  ann_xytext : Z * Q
}.

(** What [line_plot] puts on the axes.  Heights that the source computes in
    floating point ([set_ylim], the annotation heights, the canvas) are kept
    as the exact rationals of the source text. *)
Record figure : Type := {
  fig_x_vals : list Z;
  fig_y_vals : list Z;
  fig_title : string;
  fig_ylim_top : Q;
  fig_yticks : list Z;
  fig_xlabel : string;
  fig_ylabel : string;
  fig_annotations : list annotation;
  fig_label : string;
  fig_callout : string;
  fig_mood : string;
  fig_size_inches : Q * Q
}.

(** [titles_arr[deltas_arr == x]]: a boolean mask must be as long as the
    array it selects from. *)
Definition mask_select (post_titles : list string) (deltas : list Z) (x : Z)
  : result (list string) :=
  if (List.length post_titles =? List.length deltas)%nat
  then Ok (map fst (filter (fun p => snd p =? x) (combine post_titles deltas)))
  else Raise IndexError.

Definition plus_line : string := String newline (String "+" (String newline "")).

(** The [for x, count in y_counts.items()] loop, [y_offset] going down by
    0.2 a round. *)
Fixpoint annotate (post_titles : list string) (deltas : list Z) (x_offset : Z)
  (items : counter) (y_offset : Q) : result (list annotation) :=
  match items with
  | [] => Ok []
  | (x, count) :: items' =>
      sel <- mask_select post_titles deltas x ;;
      let a := {| ann_text := concat plus_line sel;
                  ann_xy := (x, count);
                  ann_xytext := (x + x_offset, y_offset) |} in
      rest <- annotate post_titles deltas x_offset items' (y_offset - (1 # 5))%Q ;;
      Ok (a :: rest)
  end.

Definition dquote : ascii := "034"%char.

(** A text between double quotes, as ['"Nice!"'] is. *)
Definition quoted (s : string) : string :=
  String dquote (s ++ String dquote "").

Definition line_plot (post_titles : list string) (deltas : list Z) (cutoff : Z)
  : result figure :=
  let x_vals := py_range cutoff 0 in
  let y_counts := Counter deltas in
  let y_vals := map (counter_get y_counts) x_vals in
  max_y_val <- py_max y_vals ;;
  let x_offset := 2 in
  let y_offset :=
    (inject_Z max_y_val + (1 # 5) * inject_Z (len y_counts) + (1 # 5))%Q in
  anns <- annotate post_titles deltas x_offset y_counts y_offset ;;
  let last_post_days :=
    if 0 <? len deltas then py_str (Z.abs (last deltas 0))
    else "+" ++ py_str (Z.abs cutoff) in
  days <- py_int last_post_days ;;
  let exclam := if days <? 14 then quoted "Nice!" else quoted "UH OH!" in
  Ok {| fig_x_vals := x_vals;
        fig_y_vals := y_vals;
        fig_title := "WELCOME TO THE BLOG!";
        fig_ylim_top :=
          (inject_Z max_y_val + (3 # 10) + (1 # 5) * inject_Z (len y_counts))%Q;
        fig_yticks := py_range 0 (max_y_val + 1);
        fig_xlabel := "Days ago...";
        fig_ylabel := "Number of posts";
        fig_annotations := anns;
        fig_label := "Days since posting...";
        fig_callout := last_post_days;
        fig_mood := exclam;
        fig_size_inches := (12 # 1, 5 # 2)%Q |}.

(** ** The script *)

Record world : Type := {
  files : filesystem;
  today : datetime
}.

(** The stages of [__main__] between the two counts it prints. *)
Definition prepare (w : world) (posts : list string)
  : result (list string * list Z) :=
  dates <- extract_dates posts ;;
  let timedeltas := timedelta_dates dates (today w) in
  titles <- extract_titles (files w) posts ;;
  filter_titles titles timedeltas default_cutoff.

(** A run of the script: the lines printed, and the figure saved as
    [images/header.png] or the exception that ended the run. *)
Definition main (w : world) : list string * result figure :=
  match list_posts (files w) default_post_path with
  | Raise e => ([], Raise e)
  | Ok posts =>
      let out := [py_str (len posts) ++ " Posts found!"] in
      match prepare w posts with
      | Raise e => (out, Raise e)
      | Ok (titles, timedeltas) =>
          let out := app out [py_str (len titles) ++ " Posts after filtering";
                              "Making plot..."] in
          match line_plot titles timedeltas default_cutoff with
          | Raise e => (out, Raise e)
          | Ok f => (app out ["Saving plot..."; "Done"], Ok f)
          end
      end
  end.

(** * What the claims speak of *)

(** ** Dated names *)

Definition char_at (p : ascii -> bool) (i : nat) (s : string) : bool :=
  match get i s with
  | Some c => p c
  | None => false
  end.

(** The leading date pattern, position by position: ten characters, [-] at
    positions 4 and 7 and a digit everywhere else. *)
Definition leading_date (name : string) : bool :=
  forallb (fun i => char_at (if (i =? 4)%nat || (i =? 7)%nat
                             then (fun c => Ascii.eqb c "-")
                             else is_digit) i name)
          (seq 0 10).

Definition ymd_text (y1 y2 y3 y4 m1 m2 d1 d2 : ascii) : string :=
  String y1 (String y2 (String y3 (String y4 (String "-"
    (String m1 (String m2 (String "-" (String d1 (String d2 ""))))))))).

(** The same pattern, as a shape of the name. *)
Definition date_prefixed (name : string) : Prop :=
  exists y1 y2 y3 y4 m1 m2 d1 d2 rest,
    name = ymd_text y1 y2 y3 y4 m1 m2 d1 d2 ++ rest
    /\ forallb is_digit [y1; y2; y3; y4; m1; m2; d1; d2] = true.

Definition number2 (a b : ascii) : Z := 10 * digit_val a + digit_val b.

Definition number4 (a b c d : ascii) : Z :=
  1000 * digit_val a + 100 * digit_val b + 10 * digit_val c + digit_val d.

(** A name whose first ten characters are a day of the calendar written
    YYYY-MM-DD: a year from 1 on, a month of the year, a day of that
    month. *)
Definition valid_date_prefix (name : string) : Prop :=
  exists y1 y2 y3 y4 m1 m2 d1 d2 rest,
    name = ymd_text y1 y2 y3 y4 m1 m2 d1 d2 ++ rest
    /\ forallb is_digit [y1; y2; y3; y4; m1; m2; d1; d2] = true
    /\ 1 <= number4 y1 y2 y3 y4
    /\ 1 <= number2 m1 m2 <= 12
    /\ 1 <= number2 d1 d2 <= days_in_month (number4 y1 y2 y3 y4) (number2 m1 m2).

(** Formatting a date back as YYYY-MM-DD: each field in decimal, filled
    with zeros to its width. *)
Fixpoint zero_padded (width : nat) (n : Z) : string :=
  match width with
  | O => ""
  | S w => zero_padded w (n / 10) ++ String (digit_char (n mod 10)) ""
  end.

Definition format_ymd (d : datetime) : string :=
  zero_padded 4 (year d) ++ "-" ++ zero_padded 2 (month d) ++ "-"
  ++ zero_padded 2 (day d).

(** ** Lines and markers *)

(** The lines of a text, each with its newline: what [f.readlines()]
    gives. *)
Fixpoint readlines (text : string) : list string :=
  match text with
  | "" => []
  | String c text' =>
      if Ascii.eqb c newline then String c "" :: readlines text'
      else match readlines text' with
           | [] => [String c ""]
           | l :: ls => String c l :: ls
           end
  end.

Definition has_title (line : string) : bool := contains "title:" line.

(** The first line with [title:] among the first [n] lines. *)
Definition title_line (n : nat) (text : string) : option string :=
  find has_title (firstn n (readlines text)).

Fixpoint spaceless (p : string) : bool :=
  match p with
  | "" => true
  | String c p' => negb (is_space c) && spaceless p'
  end.

(** What stands behind the first [marker] of [s]. *)
Fixpoint after_marker (marker s : string) : string :=
  if prefix marker s
  then substring (String.length marker) (String.length s) s
  else match s with
       | "" => ""
       | String _ s' => after_marker marker s'
       end.

(** The title in the words of the spec, to set against [extract_title]:
    of the first eleven lines, the first with [title:]; of that line, what
    stands behind the marker, trimmed; ["UH OH!"] without such a line. *)
Definition claimed_title (text : string) : string :=
  match title_line 11 text with
  | Some l => strip (after_marker "title:" l)
  | None => "UH OH!"
  end.

(** ** Kept posts *)

(** The posts newer than the cutoff, in input order, each with its day
    difference plus one. *)
Definition kept_pairs (post_titles : list string) (deltas : list Z)
  (cutoff : Z) : list (string * Z) :=
  map (fun p => (fst p, snd p + 1))
      (filter (fun p => cutoff <? snd p) (combine post_titles deltas)).

Definition same_offset (o : Z) (p : string * Z) : bool := snd p =? o.

Definition key_le {A : Type} (key : A -> Z) (a b : A) : Prop := key a <= key b.

(** The day count behind the callout. *)
Definition callout_days (deltas : list Z) (cutoff : Z) : Z :=
  match deltas with
  | [] => Z.abs cutoff
  | _ => Z.abs (last deltas 0)
  end.

(** ** Sample worlds *)

Definition sample_listing : filesystem :=
  {| dir_entries := fun p =>
       if String.eqb p "_posts/"
       then Some ["2024-01-01-a.md"; "drafts"; "2024-13-40-odd.md"; "24-01-01.md"]
       else None;
     file_text := fun _ => None |}.

(** A directory with one text under every name. *)
Definition only_text (text : string) : filesystem :=
  {| dir_entries := fun _ => None; file_text := fun _ => Some text |}.

Definition blank_lines (n : nat) : string :=
  string_of_list_ascii (repeat newline n).

Definition midnight (y m d : Z) : datetime :=
  {| year := y; month := m; day := d;
     hour := 0; minute := 0; second := 0; microsecond := 0 |}.

Definition empty_directory : world :=
  {| files := {| dir_entries := fun p =>
                   if String.eqb p "_posts/" then Some [] else None;
                 file_text := fun _ => None |};
     today := midnight 2024 1 10 |}.

(** The example of the spec: two posts, of 1 and 5 January 2024, read on
    10 January 2024. *)
Definition two_posts : world :=
  {| files :=
       {| dir_entries := fun p =>
            if String.eqb p "_posts/"
            then Some ["2024-01-01-a.md"; "2024-01-05-b.md"; "about.md"]
            else None;
          file_text := fun p =>
            if String.eqb p "_posts/2024-01-01-a.md"
            then Some ("---" ++ blank_lines 1 ++ "title: Alpha" ++ blank_lines 1)
            else if String.eqb p "_posts/2024-01-05-b.md"
            then Some ("---" ++ blank_lines 1 ++ "title: Beta" ++ blank_lines 1)
            else None |};
     today := midnight 2024 1 10 |}.

(** ** Calendar days *)

(** A day that [datetime] can hold. *)
Definition calendar_day (d : datetime) : Prop :=
  1 <= year d <= 9999
  /\ 1 <= month d <= 12
  /\ 1 <= day d <= days_in_month (year d) (month d).

Definition at_midnight (d : datetime) : Prop :=
  hour d = 0 /\ minute d = 0 /\ second d = 0 /\ microsecond d = 0.

(** The time of day, in microseconds. *)
Definition time_of_day (d : datetime) : Z :=
  ((hour d * 60 + minute d) * 60 + second d) * 1000000 + microsecond d.

(** The fields of a clock reading in their ranges. *)
Definition clock_time (d : datetime) : Prop :=
  0 <= hour d < 24 /\ 0 <= minute d < 60 /\ 0 <= second d < 60
  /\ 0 <= microsecond d < 1000000.

(** Earlier in the calendar. *)
Definition date_before (d1 d2 : datetime) : Prop :=
  year d1 < year d2
  \/ (year d1 = year d2
      /\ (month d1 < month d2 \/ (month d1 = month d2 /\ day d1 < day d2))).

(** ** Counts *)

(** How often [x] stands in [l]. *)
Definition occurrences (x : Z) (l : list Z) : Z :=
  len (filter (Z.eqb x) l).

Definition total (l : list Z) : Z := fold_right Z.add 0 l.

(** An offset of the window [cutoff, 0). *)
Definition in_window (cutoff d : Z) : bool := (cutoff <=? d) && (d <? 0).

(** The titles of the posts of one offset, in input order. *)
Definition titles_at (post_titles : list string) (deltas : list Z) (x : Z)
  : list string :=
  map fst (filter (same_offset x) (combine post_titles deltas)).

(** The offset an annotation points at. *)
Definition ann_offset (a : annotation) : Z := fst (ann_xy a).

(** ** Ends of strings *)

Fixpoint last_char (s : string) : option ascii :=
  match s with
  | "" => None
  | String c "" => Some c
  | String _ s' => last_char s'
  end.

(** A string that is not empty and does not end in whitespace. *)
Definition ends_visible (s : string) : Prop :=
  exists c, last_char s = Some c /\ is_space c = false.

(** * Properties *)

(** ** list_posts *)

Lemma forallb_seq_shift (p : nat -> bool) (start n : nat) :
  forallb p (seq (S start) n) = forallb (fun i => p (S i)) (seq start n).
Proof.
  revert start; induction n as [|n IH]; intro start; simpl; [reflexivity|].
  now rewrite IH.
Qed.

Lemma re_match_positions (pat : list atom) (s : string) :
  matched (re_match pat s)
  = forallb (fun i => char_at (atom_matches (nth i pat Digit)) i s)
            (seq 0 (List.length pat)).
Proof.
  revert s; induction pat as [|a pat IH]; intro s; [reflexivity|].
  cbn [List.length seq forallb re_match].
  rewrite forallb_seq_shift.
  destruct s as [|c s]; [reflexivity|].
  change (forallb _ (seq 0 (List.length pat)))
    with (forallb (fun i => char_at (atom_matches (nth i pat Digit)) i s)
                  (seq 0 (List.length pat))).
  rewrite <- (IH s).
  change (char_at _ 0%nat (String c s)) with (atom_matches a c).
  destruct (atom_matches a c); cbn [andb]; [|reflexivity].
  now destruct (re_match pat s).
Qed.

Lemma date_match_leading (name : string) :
  matched (date_match name) = leading_date name.
Proof.
  unfold date_match. rewrite re_match_positions. reflexivity.
Qed.

Lemma leading_date_prefixed (name : string) :
  leading_date name = true <-> date_prefixed name.
Proof.
  rewrite <- date_match_leading. unfold date_match. split.
  - intro H.
    destruct name as [|y1 [|y2 [|y3 [|y4 [|c1 [|m1 [|m2 [|c2 [|d1 [|d2 rest]]]]]]]]]];
      try discriminate H;
      cbn in H;
      repeat match type of H with
             | context [if ?b then _ else _] =>
                 destruct b eqn:?; [|discriminate H]
             end;
      try discriminate H.
    exists y1, y2, y3, y4, m1, m2, d1, d2, rest.
    repeat match goal with
           | E : Ascii.eqb _ _ = true |- _ => apply Ascii.eqb_eq in E; subst
           end.
    split; [reflexivity|].
    cbn [forallb]. repeat match goal with E : is_digit _ = true |- _ => rewrite E; clear E end.
    reflexivity.
  - intros (y1 & y2 & y3 & y4 & m1 & m2 & d1 & d2 & rest & -> & Hd).
    cbn [forallb] in Hd.
    repeat match type of Hd with
           | _ && _ = true => apply andb_prop in Hd; destruct Hd as [? Hd]
           end.
    cbn. repeat match goal with E : is_digit _ = true |- _ => rewrite E; clear E end.
    reflexivity.
Qed.

Lemma list_posts_filter (fs : filesystem) (post_path : string)
  (entries : list string) :
  dir_entries fs post_path = Some entries ->
  list_posts fs post_path = Ok (filter leading_date entries).
Proof.
  intro Hdir. unfold list_posts, os_listdir. rewrite Hdir. cbn [bind]. f_equal.
  apply filter_ext. intro name. apply date_match_leading.
Qed.

(** C8.  For a directory that can be listed, [list_posts] returns the
    entries whose first ten characters have the shape YYYY-MM-DD, in the
    order of the listing, and no other entry. *)
Theorem list_posts_exact (fs : filesystem) (post_path : string)
  (entries : list string) :
  dir_entries fs post_path = Some entries ->
  list_posts fs post_path = Ok (filter leading_date entries)
  /\ forall name,
       In name (filter leading_date entries)
       <-> In name entries /\ date_prefixed name.
Proof.
  intro Hdir. split; [now apply list_posts_filter|].
  intro name. rewrite filter_In, leading_date_prefixed. reflexivity.
Qed.

Lemma list_posts_exact_witness :
  list_posts sample_listing "_posts/"
  = Ok ["2024-01-01-a.md"; "2024-13-40-odd.md"].
Proof.
  exact (proj1 (list_posts_exact sample_listing "_posts/" _ eq_refl)).
Defined.

(** ** extract_dates *)

Lemma digit_cases (c : ascii) :
  is_digit c = true ->
  In c ["0"; "1"; "2"; "3"; "4"; "5"; "6"; "7"; "8"; "9"]%char.
Proof.
  destruct c as [[] [] [] [] [] [] [] []]; intro H;
    try discriminate H; cbn; tauto.
Qed.

Lemma digit_val_range (c : ascii) :
  is_digit c = true -> 0 <= digit_val c <= 9.
Proof.
  unfold is_digit, in_range, digit_val. intro H.
  apply andb_prop in H. destruct H as [H1 H2].
  apply Z.leb_le in H1, H2. change (code "0") with 48 in H1.
  change (code "9") with 57 in H2. lia.
Qed.

Lemma digit_char_val (c : ascii) : digit_char (digit_val c) = c.
Proof.
  unfold digit_char, digit_val, char_of, code.
  replace (Z.of_N (N_of_ascii c) - 48 + 48) with (Z.of_N (N_of_ascii c)) by lia.
  rewrite N2Z.id. apply ascii_N_embedding.
Qed.

Ltac each_digit H :=
  apply digit_cases in H; cbn [In] in H;
  repeat (destruct H as [H|H]; [symmetry in H|]); [..|contradiction].

Lemma read_m_two (a b : ascii) (r : string) :
  is_digit a = true -> is_digit b = true ->
  1 <= number2 a b <= 12 ->
  read_m (String a (String b r)) = Some (number2 a b, r).
Proof.
  intros Ha Hb Hm.
  assert (Hm' : (1 <=? number2 a b) && (number2 a b <=? 12) = true)
    by (apply andb_true_intro; split; apply Z.leb_le; lia).
  clear Hm. each_digit Ha; each_digit Hb; subst a b;
    first [discriminate Hm' | reflexivity].
Qed.

Lemma read_d_two (a b : ascii) :
  is_digit a = true -> is_digit b = true ->
  1 <= number2 a b <= 31 ->
  read_d (String a (String b "")) = Some (number2 a b, "").
Proof.
  intros Ha Hb Hd.
  assert (Hd' : (1 <=? number2 a b) && (number2 a b <=? 31) = true)
    by (apply andb_true_intro; split; apply Z.leb_le; lia).
  clear Hd. each_digit Ha; each_digit Hb; subst a b;
    first [discriminate Hd' | reflexivity].
Qed.

Lemma days_in_month_le (y m : Z) : days_in_month y m <= 31.
Proof.
  unfold days_in_month.
  destruct (m =? 2); [destruct (is_leap y); lia|].
  destruct ((m =? 4) || (m =? 6) || (m =? 9) || (m =? 11)); lia.
Qed.

Lemma zero_padded_step (w : nat) (q v : Z) :
  0 <= v <= 9 ->
  zero_padded (S w) (10 * q + v)
  = zero_padded w q ++ String (digit_char v) "".
Proof.
  intro Hv. cbn [zero_padded].
  replace ((10 * q + v) / 10) with q by (apply Z.div_unique with v; lia).
  replace ((10 * q + v) mod 10) with v by (apply Z.mod_unique with q; lia).
  reflexivity.
Qed.

Lemma zero_padded2 (a b : ascii) :
  is_digit a = true -> is_digit b = true ->
  zero_padded 2 (number2 a b) = String a (String b "").
Proof.
  intros Ha Hb. pose proof (digit_val_range _ Ha). pose proof (digit_val_range _ Hb).
  unfold number2. rewrite zero_padded_step by assumption.
  replace (digit_val a) with (10 * 0 + digit_val a) at 1 by lia.
  rewrite zero_padded_step by assumption.
  cbn [zero_padded]. now rewrite !digit_char_val.
Qed.

Lemma zero_padded4 (a b c d : ascii) :
  is_digit a = true -> is_digit b = true ->
  is_digit c = true -> is_digit d = true ->
  zero_padded 4 (number4 a b c d)
  = String a (String b (String c (String d ""))).
Proof.
  intros Ha Hb Hc Hd.
  pose proof (digit_val_range _ Ha). pose proof (digit_val_range _ Hb).
  pose proof (digit_val_range _ Hc). pose proof (digit_val_range _ Hd).
  unfold number4.
  replace (1000 * digit_val a + 100 * digit_val b + 10 * digit_val c + digit_val d)
    with (10 * (10 * (10 * (10 * 0 + digit_val a) + digit_val b) + digit_val c)
          + digit_val d) by lia.
  rewrite !zero_padded_step by assumption.
  cbn [zero_padded]. now rewrite !digit_char_val.
Qed.

Lemma extract_date_valid (post : string) :
  valid_date_prefix post ->
  exists date,
    (g <- group (date_match post) ;; strptime_ymd g) = Ok date
    /\ format_ymd date = substring 0 10 post.
Proof.
  intros (y1 & y2 & y3 & y4 & m1 & m2 & d1 & d2 & rest & -> & Hdig & Hy & Hm & Hd).
  cbn [forallb] in Hdig.
  repeat match type of Hdig with
         | _ && _ = true => apply andb_prop in Hdig; destruct Hdig as [? Hdig]
         end.
  clear Hdig.
  assert (Hmatch : date_match (ymd_text y1 y2 y3 y4 m1 m2 d1 d2 ++ rest)
                   = Some (ymd_text y1 y2 y3 y4 m1 m2 d1 d2)).
  { unfold date_match. cbn.
    repeat match goal with E : is_digit _ = true |- _ => rewrite E; clear E end.
    reflexivity. }
  rewrite Hmatch. cbn [group bind].
  pose proof (days_in_month_le (number4 y1 y2 y3 y4) (number2 m1 m2)) as Hle.
  pose proof (digit_val_range _ H). pose proof (digit_val_range _ H0).
  pose proof (digit_val_range _ H1). pose proof (digit_val_range _ H2).
  eexists. split.
  - unfold strptime_ymd, ymd_text. cbn [read_Y]. rewrite H, H0, H1, H2.
    cbn [andb read_dash Ascii.eqb Bool.eqb].
    rewrite read_m_two by assumption. cbn [read_dash Ascii.eqb Bool.eqb].
    rewrite read_d_two by (try assumption; lia).
    fold (number4 y1 y2 y3 y4). unfold make_date.
    replace (_ && _) with true; [reflexivity|].
    symmetry. repeat (apply andb_true_intro; split); apply Z.leb_le;
      unfold number4 in *; lia.
  - unfold format_ymd. cbn [year month day].
    rewrite zero_padded4, !zero_padded2 by assumption.
    cbn. now destruct rest.
Qed.

(** C7.  For identifiers whose first ten characters are a valid calendar
    day written YYYY-MM-DD, [extract_dates] returns dates, and formatting
    each date as YYYY-MM-DD gives back the identifier's first ten
    characters. *)
Theorem extract_dates_round_trip (post_list : list string) :
  Forall valid_date_prefix post_list ->
  exists dts,
    extract_dates post_list = Ok dts
    /\ map format_ymd dts = map (substring 0 10) post_list.
Proof.
  unfold extract_dates.
  induction 1 as [|post posts Hpost _ (dts & Hdts & Hfmt)].
  - exists []. split; reflexivity.
  - destruct (extract_date_valid post Hpost) as (date & Hdate & Hback).
    exists (date :: dts). cbn [comprehension map].
    rewrite Hdate. cbn [bind]. rewrite Hdts. cbn [bind].
    split; [reflexivity|]. now rewrite Hback, Hfmt.
Qed.

Lemma extract_dates_round_trip_witness :
  exists dts,
    extract_dates ["2024-02-29-leap.md"; "1999-12-31.md"] = Ok dts
    /\ map format_ymd dts = ["2024-02-29"; "1999-12-31"].
Proof.
  apply (extract_dates_round_trip ["2024-02-29-leap.md"; "1999-12-31.md"]).
  repeat constructor.
  - exists "2"%char, "0"%char, "2"%char, "4"%char, "0"%char, "2"%char,
      "2"%char, "9"%char, "-leap.md".
    repeat split; now vm_compute.
  - exists "1"%char, "9"%char, "9"%char, "9"%char, "1"%char, "2"%char,
      "3"%char, "1"%char, ".md".
    repeat split; now vm_compute.
Defined.

(** ** extract_title *)

Lemma readlines_readline (c : ascii) (text : string) :
  readlines (String c text)
  = fst (readline (String c text)) :: readlines (snd (readline (String c text))).
Proof.
  revert c; induction text as [|c' text IH]; intro c; cbn [readline readlines].
  - destruct (Ascii.eqb c newline); reflexivity.
  - destruct (Ascii.eqb c newline); [reflexivity|].
    specialize (IH c'). cbn [readline readlines] in *.
    rewrite IH. destruct (Ascii.eqb c' newline); cbn [fst snd]; [reflexivity|].
    destruct (readline text); reflexivity.
Qed.

Lemma readline_first (c : ascii) (text : string) :
  exists c' l, fst (readline (String c text)) = String c' l.
Proof.
  cbn [readline]. destruct (Ascii.eqb c newline); [now exists c, ""|].
  destruct (readline text) as [l r]. now exists c, l.
Qed.

Lemma title_loop_body (line : string) (cnt : Z) (f : string) :
  title_loop line cnt f
  = if nonempty line
    then if has_title line || (10 <? cnt) then line
         else title_loop (fst (readline f)) (cnt + 1) (snd (readline f))
    else line.
Proof.
  destruct line as [|c l]; simp title_loop; [reflexivity|].
  unfold has_title. cbn [nonempty].
  destruct (contains "title:" (String c l) || (10 <? cnt)); reflexivity.
Qed.

(** The loop leaves with the first of the next [12 - cnt] lines that has
    [title:], and otherwise with the last of them ([""] when the text ends
    before). *)
Lemma title_loop_lines (n : nat) :
  forall (text : string) (cnt : Z),
    cnt = 11 - Z.of_nat n ->
    title_loop (fst (readline text)) cnt (snd (readline text))
    = match title_line (S n) text with
      | Some l => l
      | None => nth n (readlines text) ""
      end.
Proof.
  unfold title_line.
  induction n as [|n IH]; intros text cnt Hcnt.
  - destruct text as [|c text]; [reflexivity|].
    rewrite readlines_readline, title_loop_body.
    destruct (readline_first c text) as (c' & l & ->).
    cbn [nonempty firstn find nth].
    replace (10 <? cnt) with true by (symmetry; apply Z.ltb_lt; lia).
    rewrite orb_true_r. now destruct (has_title (String c' l)).
  - destruct text as [|c text]; [reflexivity|].
    rewrite readlines_readline, title_loop_body.
    destruct (readline_first c text) as (c' & l & ->).
    cbn [nonempty]. change (firstn (S (S n)) (?x :: ?r)) with (x :: firstn (S n) r).
    cbn [find nth].
    destruct (has_title (String c' l)); [reflexivity|].
    replace (10 <? cnt) with false by (symmetry; apply Z.ltb_ge; lia).
    cbn [orb]. apply IH. lia.
Qed.

Lemma find_none_nth {A : Type} (p : A -> bool) (d : A) (n : nat) (l : list A) :
  find p (firstn (S n) l) = None -> p d = false -> p (nth n l d) = false.
Proof.
  revert l; induction n as [|n IH]; intros [|x l] Hfind Hd; cbn [nth]; try assumption.
  - cbn in Hfind. now destruct (p x).
  - change (firstn (S (S n)) (x :: l)) with (x :: firstn (S n) l) in Hfind.
    cbn [find] in Hfind. destruct (p x); [discriminate|]. now apply IH.
Qed.

(** What [extract_title] makes of a text: the first of its first twelve
    lines with [title:], trimmed and without any ["title: "]; the sentinel
    when there is none. *)
Lemma title_of_text_lines (text : string) :
  title_of_text text
  = match title_line 12 text with
    | Some l => re_sub_del "title: " 0 (strip l)
    | None => "UH OH!"
    end.
Proof.
  unfold title_of_text.
  destruct (readline text) as [line0 f] eqn:Hread.
  pose proof (title_loop_lines 11 text 0 eq_refl) as Hloop.
  rewrite Hread in Hloop. cbn [fst snd] in Hloop. rewrite Hloop.
  unfold title_line in *.
  destruct (find has_title (firstn 12 (readlines text))) as [l|] eqn:Hfind.
  - apply find_some in Hfind. destruct Hfind as [_ Hl].
    fold (has_title l). rewrite Hl. reflexivity.
  - fold (has_title (nth 11 (readlines text) "")).
    rewrite (find_none_nth has_title "" 11 _ Hfind eq_refl). reflexivity.
Qed.

(** *** Deleting the marker *)

Lemma string_app_assoc (a b c : string) : (a ++ b) ++ c = a ++ b ++ c.
Proof.
  induction a as [|x a IH]; cbn; [reflexivity|]. now rewrite IH.
Qed.

Lemma string_app_length (a b : string) :
  String.length (a ++ b) = (String.length a + String.length b)%nat.
Proof.
  induction a as [|x a IH]; cbn; [reflexivity|]. now rewrite IH.
Qed.

Lemma prefix_cons (a b : ascii) (p s : string) :
  prefix (String a p) (String b s) = Ascii.eqb a b && prefix p s.
Proof.
  cbn [prefix]. destruct (ascii_dec a b) as [->|Hne].
  - now rewrite Ascii.eqb_refl.
  - apply Ascii.eqb_neq in Hne. now rewrite Hne.
Qed.

Lemma prefix_app (p s : string) : prefix p (p ++ s) = true.
Proof.
  induction p as [|a p IH]; [now destruct s|].
  cbn [append]. now rewrite prefix_cons, Ascii.eqb_refl.
Qed.

Lemma prefix_shorten (p : string) :
  forall x y : string,
    prefix p (x ++ y) = true ->
    (String.length p <= String.length x)%nat ->
    prefix p x = true.
Proof.
  induction p as [|a p IH]; intros x y Hp Hlen; [now destruct x|].
  destruct x as [|b x]; [cbn in Hlen; lia|].
  cbn [append] in Hp. rewrite prefix_cons in *.
  apply andb_prop in Hp. destruct Hp as [-> Hp]. cbn [andb].
  apply (IH x y Hp). cbn in Hlen. lia.
Qed.

Lemma contains_nil (p : string) : contains p "" = true -> p = "".
Proof.
  now destruct p.
Qed.

Lemma re_sub_del_skip (pat s b : string) :
  re_sub_del pat (String.length s) (s ++ b) = re_sub_del pat 0 b.
Proof.
  induction s as [|c s IH]; [now destruct b|]. exact IH.
Qed.

(** Where the pattern does not occur, nothing is deleted. *)
Lemma re_sub_del_absent (pat s : string) :
  contains pat s = false -> re_sub_del pat 0 s = s.
Proof.
  induction s as [|c s IH]; [reflexivity|].
  cbn [contains re_sub_del]. intro H. apply orb_false_elim in H.
  destruct H as [-> H]. now rewrite IH.
Qed.

(** The leftmost occurrence goes, and the scan resumes behind it: the
    pattern is [init] and a last character, and it does not start inside
    [a]. *)
Lemma re_sub_del_occurrence (init : string) (last : ascii) (a b : string) :
  let pat := init ++ String last "" in
  contains pat (a ++ init) = false ->
  re_sub_del pat 0 (a ++ pat ++ b) = a ++ re_sub_del pat 0 b.
Proof.
  intros pat. induction a as [|c a IH]; intro Habs.
  - cbn [append]. destruct pat as [|p0 pat'] eqn:Hpat; [now destruct init|].
    cbn [append re_sub_del]. rewrite <- Hpat at 1.
    change (String p0 (pat' ++ b)) with (String p0 pat' ++ b).
    rewrite <- Hpat at 1. rewrite prefix_app. rewrite <- Hpat.
    replace (String.length pat - 1)%nat with (String.length pat')
      by (rewrite Hpat; cbn; lia).
    rewrite Hpat. apply re_sub_del_skip.
  - cbn [append contains] in Habs. apply orb_false_elim in Habs.
    destruct Habs as [Hpre Habs].
    cbn [append re_sub_del].
    destruct (prefix pat (String c (a ++ pat ++ b))) eqn:Hp.
    + exfalso.
      assert (Hsplit : String c (a ++ pat ++ b)
                       = String c (a ++ init) ++ String last "" ++ b).
      { unfold pat. cbn [append]. now rewrite !string_app_assoc. }
      rewrite Hsplit in Hp.
      apply prefix_shorten in Hp; [congruence|].
      unfold pat. cbn [String.length]. rewrite !string_app_length.
      cbn [String.length]. lia.
    + now rewrite (IH Habs).
Qed.

(** *** Trimming keeps the marker *)

Lemma prefix_rstrip (p : string) :
  spaceless p = true ->
  forall s, prefix p s = true -> prefix p (rstrip s) = true.
Proof.
  induction p as [|a p IH]; intros Hp s Hs; [now destruct (rstrip s)|].
  destruct s as [|c s]; [discriminate Hs|].
  rewrite prefix_cons in Hs. apply andb_prop in Hs. destruct Hs as [Hac Hs].
  apply Ascii.eqb_eq in Hac. subst c.
  cbn [spaceless] in Hp. apply andb_prop in Hp. destruct Hp as [Ha Hp].
  specialize (IH Hp s Hs). cbn [rstrip].
  destruct (rstrip s) as [|c r].
  - apply negb_true_iff in Ha. rewrite Ha.
    rewrite prefix_cons, Ascii.eqb_refl. exact IH.
  - rewrite prefix_cons, Ascii.eqb_refl. exact IH.
Qed.

Lemma contains_rstrip (p : string) :
  spaceless p = true -> p <> "" ->
  forall s, contains p s = true -> contains p (rstrip s) = true.
Proof.
  intros Hp Hne. induction s as [|c s IH]; intro Hs; [exact Hs|].
  cbn [contains] in Hs. apply orb_prop in Hs. destruct Hs as [Hs|Hs].
  - apply (prefix_rstrip p Hp) in Hs.
    destruct (rstrip (String c s)); cbn [contains]; now rewrite Hs.
  - specialize (IH Hs). cbn [rstrip].
    destruct (rstrip s) as [|c' r]; [now apply contains_nil in IH|].
    cbn [contains] in *. rewrite IH. apply orb_true_r.
Qed.

Lemma contains_lstrip (a : ascii) (p : string) :
  is_space a = false ->
  forall s, contains (String a p) s = true ->
            contains (String a p) (lstrip s) = true.
Proof.
  intros Ha. induction s as [|c s IH]; intro Hs; [exact Hs|].
  cbn [lstrip]. destruct (is_space c) eqn:Hc; [|exact Hs].
  apply IH. cbn [contains] in Hs. apply orb_prop in Hs.
  destruct Hs as [Hs|Hs]; [|exact Hs].
  rewrite prefix_cons in Hs. apply andb_prop in Hs. destruct Hs as [Hac _].
  apply Ascii.eqb_eq in Hac. congruence.
Qed.

Lemma has_title_strip (line : string) :
  has_title line = true -> has_title (strip line) = true.
Proof.
  unfold has_title, strip. intro H.
  apply contains_rstrip; [reflexivity|discriminate|].
  now apply contains_lstrip.
Qed.

(** *** The claims on extract_title *)

Lemma extract_title_text (fs : filesystem) (post base_dir text : string) :
  file_text fs (os_path_join base_dir post) = Some text ->
  extract_title fs post base_dir = Ok (title_of_text text).
Proof.
  unfold extract_title. now intros ->.
Qed.

(** C9.  On the title line (the first line with [title:] among the first
    twelve), [extract_title] returns the trimmed line with the occurrences
    of ["title: "] deleted, leftmost first: a trimmed line without
    ["title: "] comes back whole, its [title:] still in it, and an
    occurrence is deleted wherever it stands in the line, the rest of the
    line being treated the same way. *)
Theorem extract_title_deletes_every_marker
  (fs : filesystem) (post base_dir text line : string) :
  file_text fs (os_path_join base_dir post) = Some text ->
  title_line 12 text = Some line ->
  extract_title fs post base_dir = Ok (re_sub_del "title: " 0 (strip line))
  /\ (contains "title: " (strip line) = false ->
      extract_title fs post base_dir = Ok (strip line)
      /\ has_title (strip line) = true)
  /\ (forall a b,
        strip line = a ++ "title: " ++ b ->
        contains "title: " (a ++ "title:") = false ->
        extract_title fs post base_dir
        = Ok (a ++ re_sub_del "title: " 0 b)).
Proof.
  intros Hfile Hline.
  rewrite (extract_title_text _ _ _ _ Hfile), title_of_text_lines, Hline.
  split; [reflexivity|]. split.
  - intro Habs. rewrite (re_sub_del_absent _ _ Habs). split; [reflexivity|].
    apply has_title_strip. unfold title_line in Hline.
    now apply find_some in Hline.
  - intros a b -> Ha. f_equal.
    exact (re_sub_del_occurrence "title:" " " a b Ha).
Qed.

Lemma extract_title_deletes_every_marker_witness :
  extract_title (only_text "title: On title: case") "p.md" "_posts/"
  = Ok ("" ++ re_sub_del "title: " 0 "On title: case")
  /\ extract_title (only_text "title:Bare") "p.md" "_posts/" = Ok "title:Bare".
Proof.
  split.
  - apply (proj2 (proj2 (extract_title_deletes_every_marker
             (only_text "title: On title: case") "p.md" "_posts/"
             "title: On title: case" "title: On title: case"
             eq_refl eq_refl)) "" "On title: case"); reflexivity.
  - apply (proj1 (proj2 (extract_title_deletes_every_marker
             (only_text "title:Bare") "p.md" "_posts/"
             "title:Bare" "title:Bare" eq_refl eq_refl))).
    reflexivity.
Defined.

(** C2, as stated, fails: a marker without its blank is not stripped, what
    stands before the marker is kept, and a title on the twelfth line is
    still found. *)
Lemma extract_title_not_as_claimed :
  (extract_title (only_text "title:My Post") "p.md" "_posts/"
   = Ok "title:My Post"
   /\ claimed_title "title:My Post" = "My Post")
  /\ (extract_title (only_text "subtitle: My Post") "p.md" "_posts/"
      = Ok "subMy Post"
      /\ claimed_title "subtitle: My Post" = "My Post")
  /\ (extract_title (only_text (blank_lines 11 ++ "title: Late")) "p.md" "_posts/"
      = Ok "Late"
      /\ claimed_title (blank_lines 11 ++ "title: Late") = "UH OH!").
Proof.
  repeat split; reflexivity.
Qed.

(** C2, amended.  When one of the first twelve lines of the post has
    [title:], [extract_title] returns the first such line, trimmed, with
    every ["title: "] deleted; that is what stands behind the marker when
    the trimmed line begins with ["title: "] and has no other.  When none of
    the first twelve lines has [title:], it returns ["UH OH!"]. *)
Theorem extract_title_first_twelve_lines
  (fs : filesystem) (post base_dir text : string) :
  file_text fs (os_path_join base_dir post) = Some text ->
  extract_title fs post base_dir
  = Ok (match title_line 12 text with
        | Some line => re_sub_del "title: " 0 (strip line)
        | None => "UH OH!"
        end)
  /\ (forall line rest,
        title_line 12 text = Some line ->
        strip line = "title: " ++ rest ->
        contains "title: " rest = false ->
        extract_title fs post base_dir = Ok rest).
Proof.
  intro Hfile.
  rewrite (extract_title_text _ _ _ _ Hfile), title_of_text_lines.
  split; [reflexivity|].
  intros line rest -> Hstrip Hrest. f_equal. rewrite Hstrip.
  etransitivity;
    [exact (re_sub_del_occurrence "title:" " " "" rest eq_refl)|].
  cbn [append]. now apply re_sub_del_absent.
Qed.

Lemma extract_title_first_twelve_lines_witness :
  extract_title (only_text ("---" ++ blank_lines 1 ++ "title: My Post" ++ blank_lines 1))
                "p.md" "_posts/"
  = Ok "My Post".
Proof.
  apply (proj2 (extract_title_first_twelve_lines
                  (only_text ("---" ++ blank_lines 1 ++ "title: My Post" ++ blank_lines 1))
                  "p.md" "_posts/" _ eq_refl)
           ("title: My Post" ++ blank_lines 1) "My Post");
    reflexivity.
Defined.

(** C10.  A post that ends within eleven lines, none of them with
    [title:] (the empty post among them): the loop is left at the end of
    the text, [readline] having returned [""], and [extract_title] returns
    ["UH OH!"]. *)
Theorem extract_title_end_of_text
  (fs : filesystem) (post base_dir text : string) :
  file_text fs (os_path_join base_dir post) = Some text ->
  (List.length (readlines text) <= 11)%nat ->
  (forall l, In l (readlines text) -> has_title l = false) ->
  title_loop (fst (readline text)) 0 (snd (readline text)) = ""
  /\ extract_title fs post base_dir = Ok "UH OH!".
Proof.
  intros Hfile Hlen Hnone.
  assert (Hfind : title_line 12 text = None).
  { unfold title_line.
    destruct (find has_title (firstn 12 (readlines text))) as [l|] eqn:Hf;
      [|reflexivity].
    rewrite firstn_all2 in Hf by lia.
    apply find_some in Hf. destruct Hf as [Hin Hl].
    rewrite (Hnone l Hin) in Hl. discriminate. }
  split.
  - rewrite (title_loop_lines 11 text 0 eq_refl), Hfind.
    now apply nth_overflow.
  - rewrite (extract_title_text _ _ _ _ Hfile), title_of_text_lines, Hfind.
    reflexivity.
Qed.

Lemma extract_title_end_of_text_witness :
  extract_title (only_text "") "p.md" "_posts/" = Ok "UH OH!"
  /\ extract_title (only_text ("---" ++ blank_lines 1 ++ "layout: post"))
                   "p.md" "_posts/" = Ok "UH OH!".
Proof.
  split.
  - apply (extract_title_end_of_text (only_text "") "p.md" "_posts/" "" eq_refl).
    + cbn. lia.
    + intros l [].
  - apply (extract_title_end_of_text
             (only_text ("---" ++ blank_lines 1 ++ "layout: post"))
             "p.md" "_posts/" _ eq_refl).
    + cbn. lia.
    + intros l [<-|[<-|[]]]; reflexivity.
Defined.

(** ** filter_titles *)

Lemma combine_fst_snd {A B : Type} (l : list (A * B)) :
  combine (map fst l) (map snd l) = l.
Proof.
  induction l as [|[a b] l IH]; cbn; [reflexivity|]. now rewrite IH.
Qed.

Lemma filter_loop_from (cutoff : Z) (l : list (string * Z)) :
  forall (a : list string) (b : list Z),
    fold_left (filter_step cutoff) l (a, b)
    = ((a ++ map fst (map (fun p => (fst p, snd p + 1))
                          (filter (fun p => cutoff <? snd p) l)))%list,
       (b ++ map snd (map (fun p => (fst p, snd p + 1))
                          (filter (fun p => cutoff <? snd p) l)))%list).
Proof.
  induction l as [|[t d] l IH]; intros a b; cbn [fold_left filter map].
  - now rewrite !app_nil_r.
  - cbn [filter_step snd fst]. destruct (cutoff <? d); rewrite IH.
    + cbn [map fst snd]. now rewrite <- !app_assoc.
    + reflexivity.
Qed.

Lemma filter_loop_kept (post_titles : list string) (deltas : list Z)
  (cutoff : Z) :
  filter_loop post_titles deltas cutoff
  = (map fst (kept_pairs post_titles deltas cutoff),
     map snd (kept_pairs post_titles deltas cutoff)).
Proof.
  unfold filter_loop, kept_pairs. now rewrite filter_loop_from.
Qed.

Section Sorting.

Context {A : Type} (key : A -> Z).

Lemma insert_by_perm (x : A) (l : list A) :
  Permutation (insert_by key x l) (x :: l).
Proof.
  induction l as [|y l IH]; cbn [insert_by]; [reflexivity|].
  destruct (key x <=? key y); [reflexivity|].
  rewrite IH. apply perm_swap.
Qed.

Lemma sorted_perm (l : list A) : Permutation (sorted key l) l.
Proof.
  induction l as [|x l IH]; cbn [sorted]; [reflexivity|].
  now rewrite insert_by_perm, IH.
Qed.

Lemma insert_by_sorted (x : A) (l : list A) :
  StronglySorted (key_le key) l -> StronglySorted (key_le key) (insert_by key x l).
Proof.
  induction 1 as [|y l Hl IH Hy]; cbn [insert_by].
  - constructor; constructor.
  - destruct (key x <=? key y) eqn:Hxy.
    + apply Z.leb_le in Hxy. constructor; [now constructor|].
      constructor; [exact Hxy|].
      eapply Forall_impl; [|exact Hy]. unfold key_le. intros; lia.
    + apply Z.leb_gt in Hxy. constructor; [exact IH|].
      eapply Permutation_Forall;
        [symmetry; apply insert_by_perm|].
      constructor; [unfold key_le; lia|exact Hy].
Qed.

Lemma sorted_sorted (l : list A) : StronglySorted (key_le key) (sorted key l).
Proof.
  induction l as [|x l IH]; cbn [sorted]; [constructor|].
  now apply insert_by_sorted.
Qed.

Lemma insert_by_stable (k : Z) (x : A) (l : list A) :
  filter (fun a => key a =? k) (insert_by key x l)
  = filter (fun a => key a =? k) (x :: l).
Proof.
  induction l as [|y l IH]; cbn [insert_by]; [reflexivity|].
  destruct (key x <=? key y) eqn:Hxy; [reflexivity|].
  apply Z.leb_gt in Hxy. cbn [filter] in *. rewrite IH.
  destruct (key x =? k) eqn:Hx; [|reflexivity].
  apply Z.eqb_eq in Hx.
  replace (key y =? k) with false by (symmetry; apply Z.eqb_neq; lia).
  reflexivity.
Qed.

Lemma sorted_stable (k : Z) (l : list A) :
  filter (fun a => key a =? k) (sorted key l)
  = filter (fun a => key a =? k) l.
Proof.
  induction l as [|x l IH]; cbn [sorted]; [reflexivity|].
  rewrite insert_by_stable. cbn [filter]. now rewrite IH.
Qed.

Lemma sorted_keys (l : list A) :
  StronglySorted (key_le key) l -> StronglySorted Z.le (map key l).
Proof.
  induction 1 as [|x l Hl IH Hx]; cbn [map]; constructor; [exact IH|].
  apply Forall_map. exact Hx.
Qed.

(** A stable sort has one result only: two lists in key order in which
    the elements of each key stand in the same order are equal. *)
Lemma stable_sort_unique (l1 : list A) :
  forall l2 : list A,
    StronglySorted (key_le key) l1 -> StronglySorted (key_le key) l2 ->
    (forall k, filter (fun a => key a =? k) l1
               = filter (fun a => key a =? k) l2) ->
    l1 = l2.
Proof.
  assert (Hhead : forall x l y l',
             StronglySorted (key_le key) (y :: l') ->
             filter (fun a => key a =? key x) (x :: l)
             = filter (fun a => key a =? key x) (y :: l') ->
             key y <= key x).
  { intros x l y l' Hs Hf. cbn [filter] in Hf. rewrite Z.eqb_refl in Hf.
    destruct (key y =? key x) eqn:Hy; [apply Z.eqb_eq in Hy; lia|].
    assert (Hin : In x (filter (fun a => key a =? key x) l'))
      by (rewrite <- Hf; now left).
    apply filter_In in Hin. destruct Hin as [Hin _].
    apply StronglySorted_inv in Hs. destruct Hs as [_ Hall].
    rewrite Forall_forall in Hall. exact (Hall x Hin). }
  induction l1 as [|x l1 IH]; intros [|y l2] S1 S2 Hf.
  - reflexivity.
  - specialize (Hf (key y)). cbn [filter] in Hf.
    rewrite Z.eqb_refl in Hf. discriminate Hf.
  - specialize (Hf (key x)). cbn [filter] in Hf.
    rewrite Z.eqb_refl in Hf. discriminate Hf.
  - assert (Hkey : key x = key y).
    { apply Z.le_antisymm.
      - apply (Hhead y l2 x l1 S1). symmetry. apply Hf.
      - apply (Hhead x l1 y l2 S2). apply Hf. }
    assert (Hxy : x = y).
    { specialize (Hf (key x)). cbn [filter] in Hf.
      rewrite <- Hkey, Z.eqb_refl in Hf. now injection Hf. }
    subst y. f_equal.
    apply StronglySorted_inv in S1, S2.
    apply IH; [tauto|tauto|].
    intro k. specialize (Hf k). cbn [filter] in Hf.
    destruct (key x =? k); [now injection Hf|exact Hf].
Qed.

End Sorting.

Lemma unpack2_zip_star (pairs : list (string * Z)) :
  unpack2 (zip_star pairs)
  = match pairs with
    | [] => Raise ValueError
    | _ => Ok (map fst pairs, map snd pairs)
    end.
Proof.
  now destruct pairs.
Qed.

(** [filter_titles] in one equation: the kept pairs, sorted by offset and
    taken apart again; the unpacking fails when no pair is kept. *)
Lemma filter_titles_kept (post_titles : list string) (deltas : list Z)
  (cutoff : Z) :
  filter_titles post_titles deltas cutoff
  = match kept_pairs post_titles deltas cutoff with
    | [] => Raise ValueError
    | kept => Ok (map fst (sorted snd kept), map snd (sorted snd kept))
    end.
Proof.
  unfold filter_titles. rewrite filter_loop_kept, combine_fst_snd.
  cbv zeta. rewrite unpack2_zip_star.
  pose proof (sorted_perm snd (kept_pairs post_titles deltas cutoff)) as Hp.
  destruct (kept_pairs post_titles deltas cutoff) as [|p kept].
  - reflexivity.
  - destruct (sorted snd (p :: kept)) eqn:Hs; [|reflexivity].
    apply Permutation_nil in Hp. discriminate Hp.
Qed.

Lemma kept_pairs_In (post_titles : list string) (deltas : list Z)
  (cutoff : Z) (title : string) (offset : Z) :
  In (title, offset) (kept_pairs post_titles deltas cutoff)
  <-> exists delta,
        In (title, delta) (combine post_titles deltas)
        /\ cutoff < delta /\ offset = delta + 1.
Proof.
  unfold kept_pairs. rewrite in_map_iff. split.
  - intros ([t d] & Heq & Hin). apply filter_In in Hin.
    destruct Hin as [Hin Hd]. cbn [fst snd] in *.
    injection Heq as <- <-. apply Z.ltb_lt in Hd. now exists d.
  - intros (d & Hin & Hd & ->). exists (title, d). split; [reflexivity|].
    apply filter_In. split; [exact Hin|]. now apply Z.ltb_lt.
Qed.

(** C4.  The loop of [filter_titles] keeps the posts whose day difference
    is above the cutoff, each with its day difference plus one, and drops
    the others.  When at least one post is kept, [filter_titles] returns
    these pairs, no more and no fewer; when none is kept, it raises
    [ValueError]. *)
Theorem filter_titles_keeps_exactly (post_titles : list string)
  (deltas : list Z) (cutoff : Z) :
  let kept := kept_pairs post_titles deltas cutoff in
  filter_loop post_titles deltas cutoff = (map fst kept, map snd kept)
  /\ match filter_titles post_titles deltas cutoff with
     | Ok (titles, offsets) =>
         List.length titles = List.length offsets
         /\ Permutation (combine titles offsets) kept
         /\ forall title offset,
              In (title, offset) (combine titles offsets)
              <-> exists delta,
                    In (title, delta) (combine post_titles deltas)
                    /\ cutoff < delta /\ offset = delta + 1
     | Raise e => e = ValueError /\ kept = []
     end.
Proof.
  intro kept. split; [apply filter_loop_kept|].
  rewrite filter_titles_kept.
  pose proof (kept_pairs_In post_titles deltas cutoff) as Hin.
  subst kept.
  destruct (kept_pairs post_titles deltas cutoff) as [|p kept']; [now split|].
  pose proof (sorted_perm snd (p :: kept')) as Hp.
  cbv beta iota zeta.
  rewrite combine_fst_snd, !length_map. repeat split.
  - exact Hp.
  - intro H. apply Hin. eapply Permutation_in; [exact Hp|exact H].
  - intro H. apply Hin in H. eapply Permutation_in; [symmetry; exact Hp|exact H].
Qed.

(** C5.  When at least one post is kept, [filter_titles] returns the kept
    pairs with the offsets in non-decreasing order, every title beside its
    own offset, and the pairs of one offset in the order of the input. *)
Theorem filter_titles_sorted_stable (post_titles : list string)
  (deltas : list Z) (cutoff : Z) :
  kept_pairs post_titles deltas cutoff <> [] ->
  exists titles offsets,
    filter_titles post_titles deltas cutoff = Ok (titles, offsets)
    /\ List.length titles = List.length offsets
    /\ Sorted Z.le offsets
    /\ Permutation (combine titles offsets)
                   (kept_pairs post_titles deltas cutoff)
    /\ forall o,
         filter (same_offset o) (combine titles offsets)
         = filter (same_offset o) (kept_pairs post_titles deltas cutoff).
Proof.
  intro Hne. rewrite filter_titles_kept.
  destruct (kept_pairs post_titles deltas cutoff) as [|p kept] eqn:Hk;
    [contradiction|].
  cbv zeta.
  exists (map fst (sorted snd (p :: kept))), (map snd (sorted snd (p :: kept))).
  rewrite combine_fst_snd, !length_map. repeat split.
  - apply StronglySorted_Sorted, sorted_keys, sorted_sorted.
  - apply sorted_perm.
  - intro o. apply (sorted_stable snd o).
Qed.

Lemma filter_titles_sorted_stable_witness :
  exists titles offsets,
    filter_titles ["a"; "b"; "c"; "d"] [-3; -5; -3; -40] (-30)
    = Ok (titles, offsets)
    /\ List.length titles = List.length offsets
    /\ Sorted Z.le offsets
    /\ Permutation (combine titles offsets) [("a", -2); ("b", -4); ("c", -2)]
    /\ forall o,
         filter (same_offset o) (combine titles offsets)
         = filter (same_offset o) [("a", -2); ("b", -4); ("c", -2)].
Proof.
  apply (filter_titles_sorted_stable ["a"; "b"; "c"; "d"] [-3; -5; -3; -40] (-30)).
  vm_compute. discriminate.
Defined.

(** Whatever stable sort stands behind [sorted], it returns this list. *)
Lemma sorted_is_the_stable_sort {A : Type} (key : A -> Z) (l l' : list A) :
  StronglySorted (key_le key) l' ->
  (forall k, filter (fun a => key a =? k) l'
             = filter (fun a => key a =? k) l) ->
  l' = sorted key l.
Proof.
  intros Hs Hst. apply (stable_sort_unique key); [exact Hs|apply sorted_sorted|].
  intro k. now rewrite Hst, sorted_stable.
Qed.

(** ** line_plot *)

Lemma py_int_digits (u : Decimal.uint) :
  u <> Decimal.Nil ->
  py_int (NilZero.string_of_uint u) = Ok (Z.of_uint u)
  /\ py_int ("+" ++ NilZero.string_of_uint u) = Ok (Z.of_uint u).
Proof.
  intro Hu. pose proof (NilZero.usu u Hu) as Hback. split.
  - unfold py_int.
    assert (Hsign : match NilZero.string_of_uint u with
                    | String "+" r => (1, r)
                    | String "-" r => (-1, r)
                    | _ => (1, NilZero.string_of_uint u)
                    end = (1, NilZero.string_of_uint u))
      by (destruct u; [contradiction|reflexivity..]).
    rewrite Hsign, Hback. f_equal. lia.
  - unfold py_int. cbn [append]. rewrite Hback. f_equal. lia.
Qed.

Lemma py_str_nonneg (n : Z) :
  0 <= n ->
  exists u, u <> Decimal.Nil /\ py_str n = NilZero.string_of_uint u
            /\ Z.of_uint u = n.
Proof.
  intro Hn. unfold py_str. pose proof (DecimalZ.of_to n) as Hof.
  destruct n as [|p|p]; [| |lia].
  - exists Decimal.zero. repeat split. discriminate.
  - cbn [Z.to_int] in *. exists (Pos.to_uint p). repeat split.
    + apply DecimalPos.Unsigned.to_uint_nonnil.
    + exact Hof.
Qed.

(** [int] reads back what [str] wrote, with or without a [+] before it. *)
Lemma py_int_py_str (n : Z) :
  0 <= n ->
  py_int (py_str n) = Ok n /\ py_int ("+" ++ py_str n) = Ok n.
Proof.
  intro Hn. destruct (py_str_nonneg n Hn) as (u & Hu & -> & <-).
  now apply py_int_digits.
Qed.

Lemma py_range_cons (start stop : Z) :
  start < stop ->
  py_range start stop = start :: py_range (start + 1) stop.
Proof.
  intro H. unfold py_range.
  replace (Z.to_nat (stop - start)) with (S (Z.to_nat (stop - (start + 1))))
    by lia.
  cbn [seq map]. rewrite <- seq_shift, map_map. f_equal; [lia|].
  apply map_ext. intro i. lia.
Qed.

Lemma py_range_nil (start stop : Z) : stop <= start -> py_range start stop = [].
Proof.
  intro H. unfold py_range. now replace (Z.to_nat (stop - start)) with 0%nat by lia.
Qed.

Lemma py_max_ok (l : list Z) : l <> [] -> exists m, py_max l = Ok m.
Proof.
  destruct l as [|x l]; [contradiction|]. intros _. now eexists.
Qed.

Lemma annotate_ok (post_titles : list string) (deltas : list Z) (x_offset : Z) :
  List.length post_titles = List.length deltas ->
  forall (items : counter) (y_offset : Q),
  exists anns, annotate post_titles deltas x_offset items y_offset = Ok anns.
Proof.
  intros Hlen items. induction items as [|[x count] items IH]; intro y_offset.
  - now exists [].
  - cbn [annotate]. unfold mask_select. rewrite Hlen, Nat.eqb_refl. cbn [bind].
    destruct (IH (y_offset - (1 # 5))%Q) as (anns & ->). cbn [bind]. now eexists.
Qed.

(** C6.  On a window that is not empty and parallel lists, [line_plot]
    returns a figure whose callout is the absolute value of the last
    offset when there is one and otherwise [+] and the absolute value of
    the cutoff, and whose mood is ["Nice!"] (in double quotes) when that
    day count is below 14 and ["UH OH!"] (in double quotes) otherwise. *)
Theorem line_plot_callout (post_titles : list string) (deltas : list Z)
  (cutoff : Z) :
  cutoff < 0 ->
  List.length post_titles = List.length deltas ->
  exists fig,
    line_plot post_titles deltas cutoff = Ok fig
    /\ fig_callout fig
       = match deltas with
         | [] => "+" ++ py_str (Z.abs cutoff)
         | _ => py_str (Z.abs (last deltas 0))
         end
    /\ fig_mood fig
       = if callout_days deltas cutoff <? 14
         then quoted "Nice!" else quoted "UH OH!".
Proof.
  intros Hcut Hlen. unfold line_plot.
  destruct (py_max_ok (map (counter_get (Counter deltas)) (py_range cutoff 0)))
    as (m & ->).
  { rewrite py_range_cons by exact Hcut. discriminate. }
  cbn [bind].
  destruct (annotate_ok post_titles deltas 2 Hlen (Counter deltas)
              (inject_Z m + (1 # 5) * inject_Z (len (Counter deltas)) + (1 # 5))%Q)
    as (anns & ->).
  cbn [bind].
  destruct deltas as [|d deltas].
  - cbn [len List.length Z.of_nat Z.ltb Z.compare callout_days].
    rewrite (proj2 (py_int_py_str (Z.abs cutoff) (Z.abs_nonneg _))).
    cbn [bind]. eexists. repeat split.
  - replace (0 <? len (d :: deltas)) with true
      by (symmetry; apply Z.ltb_lt; unfold len; cbn [List.length]; lia).
    rewrite (proj1 (py_int_py_str (Z.abs (last (d :: deltas) 0)) (Z.abs_nonneg _))).
    cbn [bind]. eexists. repeat split.
Qed.

Lemma line_plot_callout_witness :
  (exists fig,
     line_plot ["Alpha"; "Beta"] [-12; -10] (-30) = Ok fig
     /\ fig_callout fig = "10" /\ fig_mood fig = quoted "Nice!")
  /\ (exists fig,
        line_plot ["Old"] [-20] (-30) = Ok fig
        /\ fig_callout fig = "20" /\ fig_mood fig = quoted "UH OH!")
  /\ (exists fig,
        line_plot [] [] (-30) = Ok fig
        /\ fig_callout fig = "+30" /\ fig_mood fig = quoted "UH OH!").
Proof.
  repeat split.
  - apply (line_plot_callout ["Alpha"; "Beta"] [-12; -10] (-30)); [lia|reflexivity].
  - apply (line_plot_callout ["Old"] [-20] (-30)); [lia|reflexivity].
  - apply (line_plot_callout [] [] (-30)); [lia|reflexivity].
Defined.

Lemma counter_get_empty (l : list Z) :
  map (counter_get (Counter [])) l = repeat 0 (List.length l).
Proof.
  induction l as [|x l IH]; cbn [map List.length repeat]; [reflexivity|].
  now rewrite IH.
Qed.

Lemma py_range_length (start stop : Z) :
  List.length (py_range start stop) = Z.to_nat (stop - start).
Proof.
  unfold py_range. now rewrite length_map, length_seq.
Qed.

Lemma py_max_zeros (n : nat) : py_max (repeat 0 (S n)) = Ok 0.
Proof.
  cbn [repeat py_max]. f_equal.
  induction n as [|n IH]; [reflexivity|exact IH].
Qed.

(** C3, as stated, fails: with no post and the default cutoff the maximum
    is taken over thirty zeros, and the renderer returns its figure. *)
Lemma line_plot_no_posts_has_maximum :
  py_max (map (counter_get (Counter [])) (py_range default_cutoff 0)) = Ok 0
  /\ exists fig,
       line_plot [] [] default_cutoff = Ok fig
       /\ fig_y_vals fig = repeat 0 30
       /\ fig_callout fig = "+30"
       /\ fig_mood fig = quoted "UH OH!".
Proof.
  split; [reflexivity|]. eexists. split; [reflexivity|]. repeat split.
Qed.

(** C3, amended.  With no post and a negative cutoff the counts are one
    zero for every offset of the window, their maximum is 0 and
    [line_plot] returns a figure; the maximum is undefined, and
    [line_plot] raises [ValueError], when the window is empty, that is for
    a cutoff of 0 or more, whatever the posts. *)
Theorem line_plot_maximum (cutoff : Z) :
  (cutoff < 0 ->
   exists fig,
     line_plot [] [] cutoff = Ok fig
     /\ fig_y_vals fig = repeat 0 (Z.to_nat (- cutoff))
     /\ py_max (fig_y_vals fig) = Ok 0
     /\ fig_yticks fig = [0])
  /\ (0 <= cutoff ->
      forall post_titles deltas,
        line_plot post_titles deltas cutoff = Raise ValueError).
Proof.
  split.
  - intro Hcut.
    assert (Hy : map (counter_get (Counter [])) (py_range cutoff 0)
                 = repeat 0 (Z.to_nat (- cutoff)))
      by (rewrite counter_get_empty, py_range_length; f_equal; lia).
    assert (Hmax : py_max (repeat 0 (Z.to_nat (- cutoff))) = Ok 0).
    { replace (Z.to_nat (- cutoff)) with (S (Z.to_nat (- cutoff - 1))) by lia.
      apply py_max_zeros. }
    unfold line_plot. rewrite Hy, Hmax.
    cbn [bind annotate Counter fold_left len List.length Z.of_nat Z.ltb Z.compare].
    rewrite (proj2 (py_int_py_str (Z.abs cutoff) (Z.abs_nonneg _))).
    cbn [bind]. eexists. split; [reflexivity|].
    cbn [fig_y_vals fig_yticks]. repeat split. exact Hmax.
  - intros Hcut post_titles deltas. unfold line_plot.
    now rewrite py_range_nil by exact Hcut.
Qed.

Lemma line_plot_maximum_witness :
  (exists fig,
     line_plot [] [] (-30) = Ok fig
     /\ fig_y_vals fig = repeat 0 30
     /\ py_max (fig_y_vals fig) = Ok 0
     /\ fig_yticks fig = [0])
  /\ line_plot ["Alpha"] [-8] 0 = Raise ValueError.
Proof.
  split.
  - apply (proj1 (line_plot_maximum (-30))). lia.
  - apply (proj2 (line_plot_maximum 0)). lia.
Defined.

(** ** The script *)

(** C1.  With no dated entry in the posts directory the run ends in
    [ValueError], raised by the unpacking in [filter_titles] after the
    first line has been printed; no figure is made. *)
Theorem main_without_posts_raises (w : world) (entries : list string) :
  dir_entries (files w) default_post_path = Some entries ->
  filter leading_date entries = [] ->
  filter_titles [] [] default_cutoff = Raise ValueError
  /\ main w = (["0 Posts found!"], Raise ValueError).
Proof.
  intros Hdir Hnone. split; [reflexivity|].
  unfold main.
  rewrite (list_posts_filter _ _ _ Hdir), Hnone. reflexivity.
Qed.

Lemma main_without_posts_raises_witness :
  main empty_directory = (["0 Posts found!"], Raise ValueError).
Proof.
  exact (proj2 (main_without_posts_raises empty_directory [] eq_refl eq_refl)).
Defined.

Example main_two_posts :
  exists fig,
    main two_posts
    = (["2 Posts found!"; "2 Posts after filtering"; "Making plot...";
        "Saving plot..."; "Done"], Ok fig)
    /\ map ann_text (fig_annotations fig) = ["Alpha"; "Beta"]
    /\ map ann_xy (fig_annotations fig) = [(-8, 1); (-4, 1)]
    /\ fig_callout fig = "4"
    /\ fig_mood fig = quoted "Nice!".
Proof.
  eexists. split; [vm_compute; reflexivity|]. repeat split.
Qed.

(** * Further properties *)

(** ** extract_dates: which names give a date *)

Lemma comprehension_length {A B : Type} (f : A -> result B) (l : list A)
  (bs : list B) :
  comprehension f l = Ok bs -> List.length bs = List.length l.
Proof.
  revert bs; induction l as [|a l IH]; intros bs H; cbn [comprehension] in H.
  - now injection H as <-.
  - destruct (f a) as [b|e]; [|discriminate H]. cbn [bind] in H.
    destruct (comprehension f l) as [bs'|e]; [|discriminate H].
    cbn [bind] in H. injection H as <-. cbn. now rewrite (IH bs' eq_refl).
Qed.

Lemma comprehension_raises {A B : Type} (f : A -> result B) (l : list A)
  (e : exn) :
  comprehension f l = Raise e -> exists a, In a l /\ f a = Raise e.
Proof.
  induction l as [|a l IH]; intro H; cbn [comprehension] in H;
    [discriminate H|].
  destruct (f a) as [b|e'] eqn:Ea.
  - cbn [bind] in H. destruct (comprehension f l) as [bs|e''];
      [discriminate H|].
    cbn [bind] in H. injection H as ->.
    destruct (IH eq_refl) as (a' & Hin & Ha'). exists a'. split; [now right|exact Ha'].
  - cbn [bind] in H. injection H as ->. exists a. split; [now left|exact Ea].
Qed.


Lemma month_then_dash (a b : ascii) (r : string) :
  is_digit a = true -> is_digit b = true ->
  match read_m (String a (String b (String "-" r))) with
  | Some (m, s3) =>
      match read_dash s3 with
      | Some s4 => Some (m, s4)
      | None => None
      end
  | None => None
  end
  = if (1 <=? number2 a b) && (number2 a b <=? 12)
    then Some (number2 a b, r) else None.
Proof.
  intros Ha Hb. each_digit Ha; each_digit Hb; subst a b; reflexivity.
Qed.

Lemma day_at_end (a b : ascii) :
  is_digit a = true -> is_digit b = true ->
  match read_d (String a (String b "")) with
  | Some (d, "") => Some d
  | _ => None
  end
  = if (1 <=? number2 a b) && (number2 a b <=? 31)
    then Some (number2 a b) else None.
Proof.
  intros Ha Hb. each_digit Ha; each_digit Hb; subst a b; reflexivity.
Qed.

Ltac leb_to_prop :=
  repeat match goal with
         | E : (_ <=? _) = true |- _ => apply Z.leb_le in E
         | E : (_ <=? _) = false |- _ => apply Z.leb_gt in E
         end.

Lemma strptime_ymd_text (y1 y2 y3 y4 m1 m2 d1 d2 : ascii) :
  forallb is_digit [y1; y2; y3; y4; m1; m2; d1; d2] = true ->
  strptime_ymd (ymd_text y1 y2 y3 y4 m1 m2 d1 d2)
  = if (1 <=? number4 y1 y2 y3 y4)
       && (1 <=? number2 m1 m2) && (number2 m1 m2 <=? 12)
       && (1 <=? number2 d1 d2)
       && (number2 d1 d2 <=? days_in_month (number4 y1 y2 y3 y4) (number2 m1 m2))
    then Ok (midnight (number4 y1 y2 y3 y4) (number2 m1 m2) (number2 d1 d2))
    else Raise ValueError.
Proof.
  intro Hdig. cbn [forallb] in Hdig.
  repeat match type of Hdig with
         | _ && _ = true => apply andb_prop in Hdig; destruct Hdig as [? Hdig]
         end.
  clear Hdig.
  pose proof (digit_val_range _ H). pose proof (digit_val_range _ H0).
  pose proof (digit_val_range _ H1). pose proof (digit_val_range _ H2).
  pose proof (days_in_month_le (number4 y1 y2 y3 y4) (number2 m1 m2)) as Hle.
  assert (Hy : (number4 y1 y2 y3 y4 <=? 9999) = true)
    by (apply Z.leb_le; unfold number4; lia).
  unfold strptime_ymd, ymd_text. cbn [read_Y]. rewrite H, H0, H1, H2.
  cbn [andb read_dash Ascii.eqb Bool.eqb].
  pose proof (month_then_dash m1 m2 (String d1 (String d2 "")) H3 H4) as Hm.
  pose proof (day_at_end d1 d2 H5 H6) as Hd.
  fold (number4 y1 y2 y3 y4). unfold midnight.
  destruct (read_m (String m1 (String m2 (String "-" (String d1 (String d2 ""))))))
    as [[m s3]|]; [destruct (read_dash s3) as [s4|]|];
    destruct (1 <=? number2 m1 m2) eqn:Em1;
    destruct (number2 m1 m2 <=? 12) eqn:Em2;
    cbn [andb] in Hm; try discriminate Hm;
    rewrite ?andb_false_r; cbn [andb]; try reflexivity.
  injection Hm as -> ->.
  destruct (read_d (String d1 (String d2 ""))) as [[d [|c s5]]|];
    destruct (1 <=? number2 d1 d2) eqn:Ed1;
    destruct (number2 d1 d2 <=? 31) eqn:Ed2;
    cbn [andb] in Hd; try discriminate Hd;
    try (injection Hd as ->; unfold make_date; rewrite Hy, Em1, Em2, Ed1;
         cbn [andb]; rewrite !andb_true_r; reflexivity);
    rewrite ?andb_false_r; cbn [andb]; try reflexivity;
    (destruct (number2 d1 d2 <=? days_in_month (number4 y1 y2 y3 y4)
                                               (number2 m1 m2)) eqn:Ed3;
     [exfalso; leb_to_prop; lia|now rewrite andb_false_r]).
Qed.

Lemma date_match_ymd (y1 y2 y3 y4 m1 m2 d1 d2 : ascii) (rest : string) :
  forallb is_digit [y1; y2; y3; y4; m1; m2; d1; d2] = true ->
  date_match (ymd_text y1 y2 y3 y4 m1 m2 d1 d2 ++ rest)
  = Some (ymd_text y1 y2 y3 y4 m1 m2 d1 d2).
Proof.
  intro Hdig. cbn [forallb] in Hdig.
  repeat match type of Hdig with
         | _ && _ = true => apply andb_prop in Hdig; destruct Hdig as [? Hdig]
         end.
  unfold date_match. cbn.
  repeat match goal with E : is_digit _ = true |- _ => rewrite E; clear E end.
  reflexivity.
Qed.

Lemma ymd_text_inj (y1 y2 y3 y4 m1 m2 d1 d2 : ascii) (rest : string)
  (y1' y2' y3' y4' m1' m2' d1' d2' : ascii) (rest' : string) :
  ymd_text y1 y2 y3 y4 m1 m2 d1 d2 ++ rest
  = ymd_text y1' y2' y3' y4' m1' m2' d1' d2' ++ rest' ->
  number4 y1 y2 y3 y4 = number4 y1' y2' y3' y4'
  /\ number2 m1 m2 = number2 m1' m2'
  /\ number2 d1 d2 = number2 d1' d2'.
Proof.
  unfold ymd_text. cbn [append]. intro H.
  injection H as -> -> -> -> -> -> -> -> _. repeat split.
Qed.

(** What one name gives in [extract_dates]. *)
Lemma extract_date_outcome (name : string) :
  match (g <- group (date_match name) ;; strptime_ymd g) with
  | Ok d => valid_date_prefix name /\ calendar_day d /\ at_midnight d
  | Raise e =>
      (e = AttributeError /\ ~ date_prefixed name)
      \/ (e = ValueError /\ date_prefixed name /\ ~ valid_date_prefix name)
  end.
Proof.
  destruct (leading_date name) eqn:Hlead.
  - pose proof (proj1 (leading_date_prefixed name) Hlead) as Hshape.
    destruct Hshape
      as (y1 & y2 & y3 & y4 & m1 & m2 & d1 & d2 & rest & Hname & Hdig).
    subst name. rewrite (date_match_ymd _ _ _ _ _ _ _ _ rest Hdig).
    cbn [group bind]. rewrite (strptime_ymd_text _ _ _ _ _ _ _ _ Hdig).
    pose proof (days_in_month_le (number4 y1 y2 y3 y4) (number2 m1 m2)) as Hle.
    destruct (_ && _) eqn:Hvalid.
    + repeat (apply andb_prop in Hvalid; destruct Hvalid as [Hvalid ?]).
      leb_to_prop.
      assert (Hy : number4 y1 y2 y3 y4 <= 9999).
      { cbn [forallb] in Hdig.
        repeat match type of Hdig with
               | _ && _ = true => apply andb_prop in Hdig; destruct Hdig as [? Hdig]
               end.
        repeat match goal with
               | E : is_digit _ = true |- _ => apply digit_val_range in E
               end.
        unfold number4. lia. }
      split.
      * exists y1, y2, y3, y4, m1, m2, d1, d2, rest.
        repeat split; try assumption; lia.
      * unfold calendar_day, at_midnight, midnight.
        cbn [year month day hour minute second microsecond]. repeat split; lia.
    + right. split; [reflexivity|]. split.
      * exists y1, y2, y3, y4, m1, m2, d1, d2, rest. now split.
      * intros (y1' & y2' & y3' & y4' & m1' & m2' & d1' & d2' & rest'
                & Hname' & _ & Hy & Hm & Hd).
        apply ymd_text_inj in Hname'.
        destruct Hname' as (Ey & Em & Ed). rewrite <- Ey, <- Em, <- Ed in *.
        assert (Htrue : (1 <=? number4 y1 y2 y3 y4) && (1 <=? number2 m1 m2)
                        && (number2 m1 m2 <=? 12) && (1 <=? number2 d1 d2)
                        && (number2 d1 d2 <=? days_in_month (number4 y1 y2 y3 y4)
                                                            (number2 m1 m2))
                        = true)
          by (repeat (apply andb_true_intro; split); apply Z.leb_le; lia).
        congruence.
  - assert (Hnone : date_match name = None).
    { rewrite <- date_match_leading in Hlead. now destruct (date_match name). }
    rewrite Hnone. cbn [group bind]. left. split; [reflexivity|].
    rewrite <- leading_date_prefixed. congruence.
Qed.

(** X1.  [extract_dates] returns one date for every name, each a day of
    the calendar at midnight, exactly when every name begins with a valid
    date; otherwise the first name that does not decides the exception:
    [AttributeError] without the leading pattern, [ValueError] with the
    pattern but no such day. *)
Theorem extract_dates_outcome (post_list : list string) :
  match extract_dates post_list with
  | Ok dts =>
      Forall valid_date_prefix post_list
      /\ List.length dts = List.length post_list
      /\ Forall (fun d => calendar_day d /\ at_midnight d) dts
  | Raise e =>
      exists before bad behind,
        post_list = (before ++ bad :: behind)%list
        /\ Forall valid_date_prefix before
        /\ ((e = AttributeError /\ ~ date_prefixed bad)
            \/ (e = ValueError /\ date_prefixed bad /\ ~ valid_date_prefix bad))
  end.
Proof.
  unfold extract_dates.
  induction post_list as [|post posts IH]; cbn [comprehension].
  - repeat split; constructor.
  - pose proof (extract_date_outcome post) as Hone.
    destruct (g <- group (date_match post) ;; strptime_ymd g) as [d|e].
    + cbn [bind].
      destruct (comprehension _ posts) as [dts|e'].
      * cbn [bind]. destruct IH as (Hall & Hlen & Hdays).
        destruct Hone as (Hvalid & Hday).
        repeat split; [now constructor|cbn; now rewrite Hlen|now constructor].
      * cbn [bind]. destruct IH as (before & bad & behind & -> & Hbefore & Hbad).
        exists (post :: before), bad, behind.
        repeat split; [now constructor; [apply Hone|]|exact Hbad].
    + cbn [bind]. exists [], post, posts. repeat split; [constructor|exact Hone].
Qed.

(** X2.  On the names that [list_posts] returns, [extract_dates] never
    fails for want of a match: it returns as many dates as there are names,
    or raises [ValueError] for a name whose ten characters are no day of
    the calendar. *)
Theorem list_posts_then_extract_dates (fs : filesystem) (post_path : string)
  (posts : list string) :
  list_posts fs post_path = Ok posts ->
  match extract_dates posts with
  | Ok dts => List.length dts = List.length posts
  | Raise e =>
      e = ValueError
      /\ exists bad, In bad posts /\ date_prefixed bad /\ ~ valid_date_prefix bad
  end.
Proof.
  intro Hlist.
  assert (Hshape : Forall date_prefixed posts).
  { unfold list_posts in Hlist.
    destruct (os_listdir fs post_path) as [entries|e]; [|discriminate Hlist].
    cbn [bind] in Hlist. injection Hlist as <-.
    apply Forall_forall. intros name Hin. apply filter_In in Hin.
    apply leading_date_prefixed. rewrite <- date_match_leading. tauto. }
  destruct (extract_dates posts) as [dts|e] eqn:Hd;
    [now apply comprehension_length in Hd|].
  apply comprehension_raises in Hd. destruct Hd as (bad & Hin & Hbad).
  rewrite Forall_forall in Hshape. specialize (Hshape bad Hin).
  pose proof (extract_date_outcome bad) as Hone. rewrite Hbad in Hone.
  destruct Hone as [[_ Hno]|[-> Hone]]; [contradiction|].
  split; [reflexivity|]. now exists bad.
Qed.

Lemma list_posts_then_extract_dates_witness :
  match extract_dates ["2024-01-01-a.md"; "2024-13-40-odd.md"] with
  | Ok dts => List.length dts = 2%nat
  | Raise e =>
      e = ValueError
      /\ exists bad,
           In bad ["2024-01-01-a.md"; "2024-13-40-odd.md"]
           /\ date_prefixed bad /\ ~ valid_date_prefix bad
  end.
Proof.
  exact (list_posts_then_extract_dates sample_listing "_posts/" _ eq_refl).
Defined.

(** ** timedelta_dates: days between dates *)

Lemma days_before_year_next (y : Z) :
  days_before_year (y + 1)
  = days_before_year y + (if is_leap y then 366 else 365).
Proof.
  unfold days_before_year, is_leap. cbv zeta.
  replace (y + 1 - 1) with y by lia.
  destruct (y mod 4 =? 0) eqn:E4; destruct (y mod 100 =? 0) eqn:E100;
    destruct (y mod 400 =? 0) eqn:E400; cbn [andb orb negb];
    rewrite ?Z.eqb_eq, ?Z.eqb_neq in *;
    Z.div_mod_to_equations; lia.
Qed.

Lemma days_before_year_mono (y1 y2 : Z) :
  y1 <= y2 -> days_before_year y1 <= days_before_year y2.
Proof.
  unfold days_before_year. cbv zeta. intro H.
  Z.div_mod_to_equations. lia.
Qed.

Lemma days_before_month_table (y m : Z) :
  1 <= m <= 12 ->
  days_before_month y m
  = nth (Z.to_nat (m - 1)) [0; 31; 59; 90; 120; 151; 181; 212; 243; 273; 304; 334] 0
    + (if (2 <? m) && is_leap y then 1 else 0).
Proof.
  intro Hm.
  assert (Hcases : m = 1 \/ m = 2 \/ m = 3 \/ m = 4 \/ m = 5 \/ m = 6 \/ m = 7
                   \/ m = 8 \/ m = 9 \/ m = 10 \/ m = 11 \/ m = 12) by lia.
  repeat (destruct Hcases as [->|Hcases]); try subst m;
    cbv [days_before_month py_range Z.sub Z.opp Z.add Z.pos_sub Z.to_nat
         Pos.to_nat Pos.iter_op Nat.add seq map fold_left Z.of_nat
         Pos.of_succ_nat Pos.succ Pos.add Z.succ_double Z.pred_double Z.double
         Pos.pred_double nth Z.ltb Z.compare Pos.compare Pos.compare_cont andb];
    unfold days_in_month; cbn [Z.eqb Pos.eqb orb];
    destruct (is_leap y); reflexivity.
Qed.

Ltac table_entry :=
  repeat match goal with
         | |- context [nth ?n ?l ?d] =>
             let v := eval vm_compute in (nth n l d) in
             change (nth n l d) with v
         end.

Ltac calendar_simpl :=
  cbn [Z.ltb Z.eqb Z.compare Pos.compare Pos.compare_cont Pos.eqb andb orb] in *.

Lemma day_of_year_bounds (d : datetime) :
  calendar_day d ->
  1 <= days_before_month (year d) (month d) + day d
    <= (if is_leap (year d) then 366 else 365).
Proof.
  intros (_ & Hm & Hd).
  rewrite (days_before_month_table _ _ Hm).
  unfold days_in_month in Hd.
  generalize dependent (day d). generalize dependent (month d).
  generalize (is_leap (year d)). intros leap m Hm dd Hd.
  assert (Hcases : m = 1 \/ m = 2 \/ m = 3 \/ m = 4 \/ m = 5 \/ m = 6 \/ m = 7
                   \/ m = 8 \/ m = 9 \/ m = 10 \/ m = 11 \/ m = 12) by lia.
  repeat (destruct Hcases as [->|Hcases]); try subst m;
    table_entry; destruct leap; calendar_simpl; lia.
Qed.

(** The day number grows with the calendar. *)
Lemma toordinal_mono (d1 d2 : datetime) :
  calendar_day d1 -> calendar_day d2 -> date_before d1 d2 ->
  toordinal d1 < toordinal d2.
Proof.
  intros H1 H2 Hlt. unfold toordinal.
  pose proof (day_of_year_bounds d1 H1) as B1.
  pose proof (day_of_year_bounds d2 H2) as B2.
  destruct Hlt as [Hy|[Hy Hlt]].
  - pose proof (days_before_year_next (year d1)) as Hnext.
    pose proof (days_before_year_mono (year d1 + 1) (year d2)) as Hmono.
    destruct (is_leap (year d1)); lia.
  - rewrite Hy in *. destruct Hlt as [Hm|[Hm Hd]]; [|rewrite Hm; lia].
    destruct H1 as (_ & Hm1 & Hd1). destruct H2 as (_ & Hm2 & Hd2).
    rewrite Hy in Hd1. clear B1 B2 Hy.
    rewrite (days_before_month_table _ _ Hm1), (days_before_month_table _ _ Hm2).
    unfold days_in_month in Hd1. destruct Hd2 as [Hd2 _].
    remember (month d1) as m1 eqn:E1. remember (month d2) as m2 eqn:E2.
    remember (day d1) as dd1 eqn:E3. remember (day d2) as dd2 eqn:E4.
    remember (is_leap (year d2)) as leap eqn:E5. clear E1 E2 E3 E4 E5.
    assert (C1 : m1 = 1 \/ m1 = 2 \/ m1 = 3 \/ m1 = 4 \/ m1 = 5 \/ m1 = 6
                 \/ m1 = 7 \/ m1 = 8 \/ m1 = 9 \/ m1 = 10 \/ m1 = 11) by lia.
    assert (C2 : m2 = 2 \/ m2 = 3 \/ m2 = 4 \/ m2 = 5 \/ m2 = 6 \/ m2 = 7
                 \/ m2 = 8 \/ m2 = 9 \/ m2 = 10 \/ m2 = 11 \/ m2 = 12) by lia.
    repeat (destruct C1 as [->|C1]); try subst m1;
      repeat (destruct C2 as [->|C2]); try subst m2; try lia;
      table_entry; destruct leap; calendar_simpl; lia.
Qed.

Lemma microseconds_split (d : datetime) :
  microseconds_of d = toordinal d * 86400000000 + time_of_day d.
Proof.
  unfold microseconds_of, time_of_day. lia.
Qed.

Lemma time_of_day_range (d : datetime) :
  clock_time d -> 0 <= time_of_day d < 86400000000.
Proof.
  unfold clock_time, time_of_day. lia.
Qed.

Lemma time_of_midnight (d : datetime) : at_midnight d -> time_of_day d = 0.
Proof.
  unfold at_midnight, time_of_day. intros (-> & -> & -> & ->). reflexivity.
Qed.

Lemma delta_days_floor (date compare_date : datetime) :
  at_midnight date -> clock_time compare_date ->
  delta_days date compare_date
  = toordinal date - toordinal compare_date
    - (if time_of_day compare_date =? 0 then 0 else 1).
Proof.
  intros Hmid Hclock. unfold delta_days.
  rewrite !microseconds_split, (time_of_midnight _ Hmid).
  pose proof (time_of_day_range _ Hclock) as Ht.
  destruct (time_of_day compare_date =? 0) eqn:E.
  - apply Z.eqb_eq in E. rewrite E. symmetry.
    apply Z.div_unique with 0; lia.
  - apply Z.eqb_neq in E. symmetry.
    apply Z.div_unique with (86400000000 - time_of_day compare_date); lia.
Qed.

(** X3.  Against the clock of the run, a date at midnight lies as many
    days back as the calendar says when the clock stands at midnight, and
    one day more once the day has begun: a post dated on the day of the
    run gets -1, not 0. *)
Theorem timedelta_dates_floor (date_list : list datetime)
  (compare_date : datetime) :
  Forall at_midnight date_list -> clock_time compare_date ->
  timedelta_dates date_list compare_date
  = map (fun date =>
           toordinal date - toordinal compare_date
           - (if time_of_day compare_date =? 0 then 0 else 1))
        date_list.
Proof.
  intros Hmid Hclock. unfold timedelta_dates. apply map_ext_in.
  intros date Hin. rewrite Forall_forall in Hmid.
  now apply delta_days_floor; [apply Hmid|].
Qed.

Lemma timedelta_dates_floor_witness :
  timedelta_dates [midnight 2024 1 10; midnight 2024 1 9]
    {| year := 2024; month := 1; day := 10;
       hour := 8; minute := 30; second := 0; microsecond := 0 |}
  = [-1; -2].
Proof.
  apply (timedelta_dates_floor [midnight 2024 1 10; midnight 2024 1 9]).
  - repeat constructor.
  - unfold clock_time. cbn. lia.
Defined.

Lemma delta_days_shift (date compare_date : datetime) :
  at_midnight date ->
  delta_days date compare_date
  = toordinal date + (- microseconds_of compare_date) / 86400000000.
Proof.
  intro Hmid. unfold delta_days.
  rewrite (microseconds_split date), (time_of_midnight _ Hmid).
  replace (toordinal date * 86400000000 + 0 - microseconds_of compare_date)
    with (toordinal date * 86400000000 + - microseconds_of compare_date) by lia.
  apply Z.div_add_l. lia.
Qed.

Lemma in_combine_map {A B : Type} (f : A -> B) (l : list A) (a : A) (b : B) :
  In (a, b) (combine l (map f l)) -> In a l /\ b = f a.
Proof.
  induction l as [|x l IH]; cbn [map combine In]; [contradiction|].
  intros [H|H]; [injection H as -> <-; tauto|].
  destruct (IH H). tauto.
Qed.

(** X4.  Whatever the clock of the run, the offsets of two dates differ by
    the number of days between them, and of two days of the calendar the
    earlier one gets the smaller offset. *)
Theorem timedelta_dates_order (date_list : list datetime)
  (compare_date d1 d2 : datetime) (o1 o2 : Z) :
  Forall (fun d => calendar_day d /\ at_midnight d) date_list ->
  In (d1, o1) (combine date_list (timedelta_dates date_list compare_date)) ->
  In (d2, o2) (combine date_list (timedelta_dates date_list compare_date)) ->
  o2 - o1 = toordinal d2 - toordinal d1
  /\ (date_before d1 d2 -> o1 < o2).
Proof.
  intros Hall H1 H2. unfold timedelta_dates in *.
  apply in_combine_map in H1, H2. destruct H1 as [Hin1 ->], H2 as [Hin2 ->].
  rewrite Forall_forall in Hall.
  destruct (Hall d1 Hin1) as [Hc1 Hm1]. destruct (Hall d2 Hin2) as [Hc2 Hm2].
  rewrite (delta_days_shift d1 _ Hm1), (delta_days_shift d2 _ Hm2).
  split; [lia|]. intro Hlt.
  pose proof (toordinal_mono d1 d2 Hc1 Hc2 Hlt). lia.
Qed.

Lemma timedelta_dates_order_witness :
  -10 - -45 = toordinal (midnight 2024 1 1) - toordinal (midnight 2023 11 27)
  /\ (date_before (midnight 2023 11 27) (midnight 2024 1 1) -> -45 < -10).
Proof.
  apply (timedelta_dates_order
           [midnight 2024 1 1; midnight 2023 11 27]
           {| year := 2024; month := 1; day := 10;
              hour := 8; minute := 30; second := 0; microsecond := 0 |}).
  - repeat constructor; cbn; lia.
  - right. left. reflexivity.
  - left. reflexivity.
Defined.

(** ** filter_titles: what it returns *)

(** X5.  [zip] stops at the shorter list: titles or day differences beyond
    it play no part. *)
Theorem filter_titles_zip (post_titles : list string) (deltas : list Z)
  (cutoff : Z) :
  let n := Nat.min (List.length post_titles) (List.length deltas) in
  filter_titles post_titles deltas cutoff
  = filter_titles (firstn n post_titles) (firstn n deltas) cutoff.
Proof.
  intro n. unfold filter_titles, filter_loop.
  rewrite <- combine_firstn.
  rewrite (firstn_all2 (combine post_titles deltas)); [reflexivity|].
  rewrite length_combine. subst n. lia.
Qed.

Lemma sorted_last_greatest (l : list Z) :
  StronglySorted Z.le l -> Forall (fun o => o <= last l 0) l.
Proof.
  induction 1 as [|x l Hl IH Hx]; [constructor|].
  destruct l as [|y l]; [repeat constructor; cbn; lia|].
  change (last (x :: y :: l) 0) with (last (y :: l) 0).
  constructor; [|exact IH].
  apply Forall_inv in Hx, IH. lia.
Qed.

Lemma last_In (l : list Z) : l <> [] -> In (last l 0) l.
Proof.
  induction l as [|x l IH]; [contradiction|]. intros _.
  destruct l as [|y l]; [now left|].
  right. apply IH. discriminate.
Qed.

(** X6.  When [filter_titles] returns, its lists are not empty and of one
    length, every offset is above the cutoff plus one, and the last offset
    is the greatest: the day difference of the newest kept post plus
    one. *)
Theorem filter_titles_newest_last (post_titles : list string)
  (deltas : list Z) (cutoff : Z) (titles : list string) (offsets : list Z) :
  filter_titles post_titles deltas cutoff = Ok (titles, offsets) ->
  offsets <> []
  /\ List.length titles = List.length offsets
  /\ Forall (fun o => cutoff + 1 < o) offsets
  /\ (exists title delta,
        In (title, delta) (combine post_titles deltas)
        /\ cutoff < delta /\ last offsets 0 = delta + 1)
  /\ (forall title delta,
        In (title, delta) (combine post_titles deltas) ->
        cutoff < delta -> delta + 1 <= last offsets 0).
Proof.
  rewrite filter_titles_kept.
  pose proof (kept_pairs_In post_titles deltas cutoff) as Hin.
  destruct (kept_pairs post_titles deltas cutoff) as [|p kept] eqn:Hk;
    [discriminate|].
  cbv zeta. intro H. injection H as <- <-.
  pose proof (sorted_perm snd (p :: kept)) as Hperm.
  pose proof (sorted_keys snd _ (sorted_sorted snd (p :: kept))) as Hsorted.
  assert (Hne : map snd (sorted snd (p :: kept)) <> []).
  { intro E. apply map_eq_nil in E. rewrite E in Hperm.
    apply Permutation_nil in Hperm. discriminate Hperm. }
  assert (Hmem : forall o, In o (map snd (sorted snd (p :: kept))) ->
                           exists title delta,
                             In (title, delta) (combine post_titles deltas)
                             /\ cutoff < delta /\ o = delta + 1).
  { intros o Ho. apply in_map_iff in Ho. destruct Ho as ([t o'] & <- & Ho).
    apply (Permutation_in _ Hperm) in Ho. apply Hin in Ho.
    destruct Ho as (delta & H1 & H2 & H3). now exists t, delta. }
  repeat split.
  - exact Hne.
  - now rewrite !length_map.
  - apply Forall_forall. intros o Ho.
    destruct (Hmem o Ho) as (t & delta & _ & Hd & ->). lia.
  - apply Hmem. now apply last_In.
  - intros title delta Hpair Hd.
    assert (Hkept : In (title, delta + 1) (p :: kept))
      by (apply Hin; now exists delta).
    apply (Permutation_in _ (Permutation_sym Hperm)) in Hkept.
    apply (in_map snd) in Hkept. cbn [snd] in Hkept.
    pose proof (sorted_last_greatest _ Hsorted) as Hlast.
    rewrite Forall_forall in Hlast. now apply Hlast.
Qed.

Lemma filter_titles_newest_last_witness :
  [-4; -2; -2] <> []
  /\ List.length ["b"; "a"; "c"] = List.length [-4; -2; -2]
  /\ Forall (fun o => -30 + 1 < o) [-4; -2; -2]
  /\ (exists title delta,
        In (title, delta) (combine ["a"; "b"; "c"; "d"] [-3; -5; -3; -40])
        /\ -30 < delta /\ last [-4; -2; -2] 0 = delta + 1)
  /\ (forall title delta,
        In (title, delta) (combine ["a"; "b"; "c"; "d"] [-3; -5; -3; -40]) ->
        -30 < delta -> delta + 1 <= last [-4; -2; -2] 0).
Proof.
  apply (filter_titles_newest_last ["a"; "b"; "c"; "d"] [-3; -5; -3; -40] (-30)).
  reflexivity.
Defined.

Lemma sorted_perm_unique (l1 : list Z) :
  forall l2 : list Z,
    StronglySorted Z.le l1 -> StronglySorted Z.le l2 ->
    Permutation l1 l2 -> l1 = l2.
Proof.
  induction l1 as [|x l1 IH]; intros l2 S1 S2 Hp.
  - apply Permutation_nil in Hp. now subst.
  - destruct l2 as [|y l2];
      [apply Permutation_sym, Permutation_nil in Hp; discriminate|].
    apply StronglySorted_inv in S1, S2.
    destruct S1 as [S1 F1], S2 as [S2 F2].
    rewrite Forall_forall in F1, F2.
    assert (Hxy : x = y).
    { assert (Hx : In x (y :: l2))
        by (apply (Permutation_in _ Hp); now left).
      assert (Hy : In y (x :: l1))
        by (apply (Permutation_in _ (Permutation_sym Hp)); now left).
      destruct Hx as [Hx|Hx]; [now symmetry|].
      destruct Hy as [Hy|Hy]; [exact Hy|].
      specialize (F1 y Hy). specialize (F2 x Hx). lia. }
    subst y. f_equal. apply IH; try assumption.
    now apply Permutation_cons_inv in Hp.
Qed.

Lemma kept_pairs_perm (ts ts' : list string) (ds ds' : list Z) (cutoff : Z) :
  Permutation (combine ts ds) (combine ts' ds') ->
  Permutation (kept_pairs ts ds cutoff) (kept_pairs ts' ds' cutoff).
Proof.
  unfold kept_pairs. intro Hp. apply Permutation_map.
  induction Hp as [|x l l' Hp IH|x y l|l l' l'' Hp1 IH1 Hp2 IH2]; cbn [filter].
  - constructor.
  - destruct (cutoff <? snd x); [now constructor|exact IH].
  - destruct (cutoff <? snd x), (cutoff <? snd y);
      first [apply perm_swap | reflexivity].
  - now transitivity (filter (fun p => cutoff <? snd p) l').
Qed.

(** X7.  The order in which the posts come in (the listing of a directory
    has none) does not reach the offsets: the same posts in another order
    give the same list of offsets and the same titles, up to the order of
    titles of one day; or the same failure. *)
Theorem filter_titles_any_order (ts ts' : list string) (ds ds' : list Z)
  (cutoff : Z) :
  Permutation (combine ts ds) (combine ts' ds') ->
  match filter_titles ts ds cutoff, filter_titles ts' ds' cutoff with
  | Ok (titles, offsets), Ok (titles', offsets') =>
      offsets = offsets'
      /\ Permutation (combine titles offsets) (combine titles' offsets')
  | Raise e, Raise e' => e = e'
  | _, _ => False
  end.
Proof.
  intro Hp. apply (kept_pairs_perm _ _ _ _ cutoff) in Hp.
  rewrite !filter_titles_kept.
  destruct (kept_pairs ts ds cutoff) as [|p kept];
    destruct (kept_pairs ts' ds' cutoff) as [|p' kept'].
  - reflexivity.
  - apply Permutation_nil in Hp. discriminate Hp.
  - apply Permutation_sym, Permutation_nil in Hp. discriminate Hp.
  - cbv zeta.
    pose proof (sorted_perm snd (p :: kept)) as H1.
    pose proof (sorted_perm snd (p' :: kept')) as H2.
    assert (H12 : Permutation (sorted snd (p :: kept)) (sorted snd (p' :: kept'))).
    { rewrite H1, Hp. now symmetry. }
    split.
    + apply sorted_perm_unique;
        [apply sorted_keys, sorted_sorted..|now apply Permutation_map].
    + now rewrite !combine_fst_snd.
Qed.

Lemma filter_titles_any_order_witness :
  match filter_titles ["a"; "b"; "c"] [-3; -5; -3] (-30),
        filter_titles ["c"; "b"; "a"] [-3; -5; -3] (-30) with
  | Ok (titles, offsets), Ok (titles', offsets') =>
      offsets = offsets'
      /\ Permutation (combine titles offsets) (combine titles' offsets')
  | Raise e, Raise e' => e = e'
  | _, _ => False
  end.
Proof.
  apply (filter_titles_any_order ["a"; "b"; "c"] ["c"; "b"; "a"]
           [-3; -5; -3] [-3; -5; -3] (-30)).
  cbn [combine].
  apply perm_trans with [("b", -5); ("a", -3); ("c", -3)]; [apply perm_swap|].
  apply perm_trans with [("b", -5); ("c", -3); ("a", -3)];
    [apply perm_skip, perm_swap|].
  apply perm_swap.
Defined.

(** ** line_plot: the counts *)

Lemma counter_get_incr (x y : Z) (c : counter) :
  counter_get (counter_incr x c) y
  = counter_get c y + (if x =? y then 1 else 0).
Proof.
  induction c as [|[k v] c IH]; cbn [counter_incr counter_get].
  - destruct (x =? y); lia.
  - destruct (k =? x) eqn:Ekx; cbn [counter_get].
    + apply Z.eqb_eq in Ekx. subst k. destruct (x =? y); lia.
    + destruct (k =? y) eqn:Eky; [|exact IH].
      apply Z.eqb_eq in Eky. subst k. rewrite Z.eqb_sym, Ekx. lia.
Qed.

Lemma counter_keys_incr (x : Z) (c : counter) :
  map fst (counter_incr x c)
  = if existsb (Z.eqb x) (map fst c) then map fst c
    else (map fst c ++ [x])%list.
Proof.
  induction c as [|[k v] c IH]; cbn [counter_incr map fst existsb app];
    [reflexivity|].
  rewrite (Z.eqb_sym x k).
  destruct (k =? x); cbn [map fst orb]; [reflexivity|].
  rewrite IH. now destruct (existsb (Z.eqb x) (map fst c)).
Qed.

Lemma Counter_snoc (l : list Z) (x : Z) :
  Counter (l ++ [x]) = counter_incr x (Counter l).
Proof.
  unfold Counter. now rewrite fold_left_app.
Qed.

Lemma occurrences_snoc (y : Z) (l : list Z) (x : Z) :
  occurrences y (l ++ [x]) = occurrences y l + (if x =? y then 1 else 0).
Proof.
  unfold occurrences, len. rewrite filter_app, length_app. cbn [filter].
  rewrite (Z.eqb_sym y x). destruct (x =? y); cbn [List.length]; lia.
Qed.

(** A [Counter] of a list answers with the number of occurrences. *)
Lemma counter_get_Counter (l : list Z) (y : Z) :
  counter_get (Counter l) y = occurrences y l.
Proof.
  induction l as [|x l IH] using rev_ind; [reflexivity|].
  now rewrite Counter_snoc, counter_get_incr, occurrences_snoc, IH.
Qed.

Lemma existsb_eqb_In (x : Z) (l : list Z) :
  existsb (Z.eqb x) l = true <-> In x l.
Proof.
  rewrite existsb_exists. split.
  - intros (y & Hin & E). apply Z.eqb_eq in E. now subst.
  - intro Hin. exists x. split; [exact Hin|apply Z.eqb_refl].
Qed.

Lemma counter_keys (l : list Z) :
  NoDup (map fst (Counter l))
  /\ forall x, In x (map fst (Counter l)) <-> In x l.
Proof.
  induction l as [|x l [Hnd Hin]] using rev_ind.
  - split; [constructor|reflexivity].
  - rewrite Counter_snoc, counter_keys_incr.
    destruct (existsb (Z.eqb x) (map fst (Counter l))) eqn:E.
    + apply existsb_eqb_In in E. split; [exact Hnd|].
      intro y. rewrite in_app_iff, Hin. cbn [In].
      split; [tauto|]. intros [H|[<-|[]]]; [exact H|]. now apply Hin.
    + assert (Hx : ~ In x (map fst (Counter l))).
      { intro H. apply existsb_eqb_In in H. congruence. }
      split.
      * apply NoDup_app; [exact Hnd|repeat constructor; intros []|].
        intros y Hy [<-|[]]. contradiction.
      * intro y. rewrite !in_app_iff, Hin. reflexivity.
Qed.


Lemma py_range_In (start stop x : Z) :
  In x (py_range start stop) <-> start <= x < stop.
Proof.
  unfold py_range. rewrite in_map_iff. split.
  - intros (i & <- & Hi). apply in_seq in Hi. lia.
  - intro H. exists (Z.to_nat (x - start)). split; [lia|].
    apply in_seq. lia.
Qed.

Lemma py_range_ascending (start stop : Z) :
  StronglySorted Z.lt (py_range start stop).
Proof.
  remember (Z.to_nat (stop - start)) as n eqn:En.
  revert start En. induction n as [|n IH]; intros start En.
  - rewrite py_range_nil by lia. constructor.
  - rewrite py_range_cons by lia. constructor; [apply IH; lia|].
    apply Forall_forall. intros x Hx. apply py_range_In in Hx. lia.
Qed.

Lemma total_pointwise_add (f g : Z -> Z) (l : list Z) :
  total (map (fun x => f x + g x) l) = total (map f l) + total (map g l).
Proof.
  induction l as [|x l IH]; cbn [map total fold_right]; [reflexivity|].
  unfold total in IH. lia.
Qed.

Lemma total_indicator (d start stop : Z) :
  total (map (fun x => if d =? x then 1 else 0) (py_range start stop))
  = if (start <=? d) && (d <? stop) then 1 else 0.
Proof.
  remember (Z.to_nat (stop - start)) as n eqn:En.
  revert start En. induction n as [|n IH]; intros start En.
  - rewrite py_range_nil by lia. cbn.
    destruct (start <=? d) eqn:E1, (d <? stop) eqn:E2; cbn; try reflexivity.
    apply Z.leb_le in E1. apply Z.ltb_lt in E2. lia.
  - rewrite py_range_cons by lia. cbn [map total fold_right].
    fold (total (map (fun x => if d =? x then 1 else 0) (py_range (start + 1) stop))).
    rewrite IH by lia.
    destruct (d =? start) eqn:E0, (start <=? d) eqn:E1, (start + 1 <=? d) eqn:E3,
      (d <? stop) eqn:E2; cbn [andb];
      rewrite ?Z.eqb_eq, ?Z.eqb_neq, ?Z.leb_le, ?Z.leb_gt, ?Z.ltb_lt, ?Z.ltb_ge in *;
      lia.
Qed.

Lemma total_occurrences (l : list Z) (start stop : Z) :
  total (map (fun x => occurrences x l) (py_range start stop))
  = len (filter (fun d => (start <=? d) && (d <? stop)) l).
Proof.
  induction l as [|d l IH]; cbn [filter].
  - unfold occurrences, len. cbn.
    induction (py_range start stop) as [|x r IHr]; cbn; [reflexivity|].
    unfold total in IHr. cbn in IHr. lia.
  - assert (Hocc : forall x, occurrences x (d :: l)
                             = (if d =? x then 1 else 0) + occurrences x l).
    { intro x. unfold occurrences, len. cbn [filter].
      rewrite (Z.eqb_sym x d). destruct (d =? x); cbn [List.length]; lia. }
    rewrite (map_ext _ _ Hocc), total_pointwise_add, total_indicator, IH.
    destruct ((start <=? d) && (d <? stop)); unfold len; cbn [List.length]; lia.
Qed.

Lemma line_plot_fields (post_titles : list string) (deltas : list Z)
  (cutoff : Z) (fig : figure) :
  line_plot post_titles deltas cutoff = Ok fig ->
  exists m anns,
    py_max (map (counter_get (Counter deltas)) (py_range cutoff 0)) = Ok m
    /\ annotate post_titles deltas 2 (Counter deltas)
         (inject_Z m + (1 # 5) * inject_Z (len (Counter deltas)) + (1 # 5))%Q
       = Ok anns
    /\ fig_x_vals fig = py_range cutoff 0
    /\ fig_y_vals fig = map (counter_get (Counter deltas)) (py_range cutoff 0)
    /\ fig_yticks fig = py_range 0 (m + 1)
    /\ fig_annotations fig = anns.
Proof.
  unfold line_plot. intro H.
  destruct (py_max _) as [m|e] eqn:Hmax; [|discriminate H]. cbn [bind] in H.
  destruct (annotate _ _ _ _ _) as [anns|e] eqn:Hann; [|discriminate H].
  cbn [bind] in H.
  destruct (py_int _) as [days|e]; [|discriminate H]. cbn [bind] in H.
  injection H as <-. exists m, anns. repeat split; assumption.
Qed.

(** X8.  The line of a figure runs over the offsets from the cutoff to -1,
    in ascending order, and shows over each the number of posts of that
    offset; posts of other offsets (0 and above, or below the cutoff) are
    in no count, so the counts add up to the number of posts inside the
    window. *)
Theorem line_plot_counts (post_titles : list string) (deltas : list Z)
  (cutoff : Z) (fig : figure) :
  line_plot post_titles deltas cutoff = Ok fig ->
  (forall x, In x (fig_x_vals fig) <-> cutoff <= x < 0)
  /\ StronglySorted Z.lt (fig_x_vals fig)
  /\ fig_y_vals fig = map (fun x => occurrences x deltas) (fig_x_vals fig)
  /\ total (fig_y_vals fig) = len (filter (in_window cutoff) deltas).
Proof.
  intro H. apply line_plot_fields in H.
  destruct H as (m & anns & _ & _ & -> & -> & _ & _).
  assert (Hy : map (counter_get (Counter deltas)) (py_range cutoff 0)
               = map (fun x => occurrences x deltas) (py_range cutoff 0))
    by (apply map_ext; intro x; apply counter_get_Counter).
  split; [intro x; apply py_range_In|].
  split; [apply py_range_ascending|].
  split; [exact Hy|].
  rewrite Hy. apply total_occurrences.
Qed.

Lemma line_plot_counts_witness :
  exists fig,
    line_plot ["a"; "b"; "c"; "d"] [-40; -3; -3; 0] (-5) = Ok fig
    /\ (forall x, In x (fig_x_vals fig) <-> -5 <= x < 0)
    /\ StronglySorted Z.lt (fig_x_vals fig)
    /\ fig_y_vals fig
       = map (fun x => occurrences x [-40; -3; -3; 0]) (fig_x_vals fig)
    /\ total (fig_y_vals fig) = len (filter (in_window (-5)) [-40; -3; -3; 0]).
Proof.
  eexists. split; [reflexivity|].
  apply (line_plot_counts ["a"; "b"; "c"; "d"] [-40; -3; -3; 0] (-5)).
  reflexivity.
Defined.

Lemma fold_max_spec (l : list Z) :
  forall x,
    In (fold_left Z.max l x) (x :: l)
    /\ Forall (fun y => y <= fold_left Z.max l x) (x :: l).
Proof.
  induction l as [|y l IH]; intro x; cbn [fold_left].
  - split; [now left|]. repeat constructor. lia.
  - destruct (IH (Z.max x y)) as [Hin Hall]. split.
    + destruct Hin as [Hin|Hin]; [|right; right; exact Hin].
      destruct (Z.max_spec x y) as [[_ E]|[_ E]].
      * right. left. now rewrite <- Hin.
      * left. now rewrite <- Hin.
    + apply Forall_cons_iff in Hall. destruct Hall as [Hm Hall].
      repeat constructor; [lia|lia|exact Hall].
Qed.

Lemma occurrences_nonneg (x : Z) (l : list Z) : 0 <= occurrences x l.
Proof.
  unfold occurrences, len. lia.
Qed.

(** X9.  The ticks of the y axis are the numbers from 0 to the greatest
    count of the window, a count that some offset reaches and none
    exceeds. *)
Theorem line_plot_ticks (post_titles : list string) (deltas : list Z)
  (cutoff : Z) (fig : figure) :
  line_plot post_titles deltas cutoff = Ok fig ->
  exists m,
    In m (fig_y_vals fig)
    /\ Forall (fun y => 0 <= y <= m) (fig_y_vals fig)
    /\ fig_yticks fig = py_range 0 (m + 1)
    /\ forall t, In t (fig_yticks fig) <-> 0 <= t <= m.
Proof.
  intro H. apply line_plot_fields in H.
  destruct H as (m & anns & Hmax & _ & _ & Hy & Ht & _).
  exists m. rewrite Hy, Ht.
  destruct (map (counter_get (Counter deltas)) (py_range cutoff 0))
    as [|y ys] eqn:E; [discriminate Hmax|].
  cbn [py_max] in Hmax. injection Hmax as <-.
  destruct (fold_max_spec ys y) as [Hin Hall].
  split; [exact Hin|]. split.
  - rewrite Forall_forall in *. intros v Hv. split; [|now apply Hall].
    rewrite <- E in Hv. apply in_map_iff in Hv. destruct Hv as (x & <- & _).
    rewrite counter_get_Counter. apply occurrences_nonneg.
  - split; [reflexivity|]. intro t. rewrite py_range_In. lia.
Qed.

Lemma line_plot_ticks_witness :
  exists fig m,
    line_plot ["a"; "b"; "c"] [-3; -3; -1] (-5) = Ok fig
    /\ In m (fig_y_vals fig)
    /\ Forall (fun y => 0 <= y <= m) (fig_y_vals fig)
    /\ fig_yticks fig = py_range 0 (m + 1)
    /\ forall t, In t (fig_yticks fig) <-> 0 <= t <= m.
Proof.
  destruct (line_plot_ticks ["a"; "b"; "c"] [-3; -3; -1] (-5) _ eq_refl)
    as (m & H).
  eexists. exists m. split; [reflexivity|exact H].
Defined.

Lemma Counter_nil_iff (l : list Z) : Counter l = [] <-> l = [].
Proof.
  split; [|now intros ->].
  intro H. destruct l as [|x l]; [reflexivity|].
  destruct (counter_keys (x :: l)) as [_ Hin].
  rewrite H in Hin. cbn [map] in Hin. exfalso. apply (Hin x). now left.
Qed.

(** X10.  [line_plot] fails in two ways only: with [ValueError] when the
    window is empty (a cutoff of 0 or more), and with [IndexError] when
    the window is not empty, there are offsets, and the titles are not as
    many as the offsets.  In every other case it returns a figure. *)
Theorem line_plot_outcome (post_titles : list string) (deltas : list Z)
  (cutoff : Z) :
  match line_plot post_titles deltas cutoff with
  | Ok _ =>
      cutoff < 0
      /\ (deltas = [] \/ List.length post_titles = List.length deltas)
  | Raise e =>
      (e = ValueError /\ 0 <= cutoff)
      \/ (e = IndexError /\ cutoff < 0 /\ deltas <> []
          /\ List.length post_titles <> List.length deltas)
  end.
Proof.
  destruct (Z.ltb_spec cutoff 0) as [Hcut|Hcut].
  - unfold line_plot.
    destruct (py_max_ok (map (counter_get (Counter deltas)) (py_range cutoff 0)))
      as (m & ->).
    { rewrite py_range_cons by exact Hcut. discriminate. }
    cbn [bind].
    assert (Hint : exists days,
               py_int (if 0 <? len deltas
                       then py_str (Z.abs (last deltas 0))
                       else "+" ++ py_str (Z.abs cutoff)) = Ok days).
    { destruct (0 <? len deltas).
      - eexists. apply (py_int_py_str _ (Z.abs_nonneg _)).
      - eexists. apply (py_int_py_str _ (Z.abs_nonneg _)). }
    destruct Hint as (days & Hint).
    destruct (Nat.eq_dec (List.length post_titles) (List.length deltas))
      as [Hlen|Hlen].
    + destruct (annotate_ok post_titles deltas 2 Hlen (Counter deltas)
                  (inject_Z m + (1 # 5) * inject_Z (len (Counter deltas))
                   + (1 # 5))%Q) as (anns & ->).
      cbn [bind]. rewrite Hint. cbn [bind]. tauto.
    + destruct (Counter deltas) as [|[x count] items] eqn:Ec.
      * apply Counter_nil_iff in Ec. subst deltas.
        cbn [annotate bind]. rewrite Hint. cbn [bind]. tauto.
      * cbn [annotate]. unfold mask_select.
        apply Nat.eqb_neq in Hlen. rewrite Hlen. cbn [bind].
        right. repeat split; try reflexivity; try assumption.
        -- intros ->. discriminate Ec.
        -- now apply Nat.eqb_neq.
  - unfold line_plot. rewrite py_range_nil by lia. cbn [map py_max bind].
    left. now split.
Qed.

Lemma line_plot_outcome_witness :
  line_plot ["a"] [-3; -2] (-5) = Raise IndexError
  /\ line_plot [] [] 0 = Raise ValueError.
Proof.
  split.
  - pose proof (line_plot_outcome ["a"] [-3; -2] (-5)) as H.
    destruct (line_plot ["a"] [-3; -2] (-5)) as [fig|e].
    + exfalso. destruct H as [_ [H|H]]; discriminate H.
    + destruct H as [[_ H]|[-> _]]; [exfalso; lia|reflexivity].
  - pose proof (line_plot_outcome [] [] 0) as H.
    destruct (line_plot [] [] 0) as [fig|e].
    + exfalso. lia.
    + destruct H as [[-> _]|[_ [H _]]]; [reflexivity|exfalso; lia].
Defined.

(** ** line_plot: the annotations *)

Lemma annotate_spec (post_titles : list string) (deltas : list Z)
  (x_offset : Z) (items : counter) :
  forall (y_offset : Q) (anns : list annotation),
    annotate post_titles deltas x_offset items y_offset = Ok anns ->
    map ann_xy anns = items
    /\ Forall (fun a =>
                 ann_text a
                 = concat plus_line (titles_at post_titles deltas (ann_offset a))
                 /\ fst (ann_xytext a) = ann_offset a + x_offset) anns.
Proof.
  induction items as [|[x count] items IH]; intros y_offset anns H;
    cbn [annotate] in H.
  - injection H as <-. split; [reflexivity|constructor].
  - unfold mask_select in H.
    destruct (List.length post_titles =? List.length deltas)%nat;
      [|discriminate H].
    cbn [bind] in H.
    destruct (annotate post_titles deltas x_offset items (y_offset - (1 # 5))%Q)
      as [rest|e] eqn:Hrest; [|discriminate H].
    cbn [bind] in H. injection H as <-.
    destruct (IH _ _ Hrest) as [Hxy Hall]. split.
    + cbn [map ann_xy]. now rewrite Hxy.
    + constructor; [|exact Hall]. split; reflexivity.
Qed.





(** ** The script: how a run ends *)

Lemma line_plot_returns (post_titles : list string) (deltas : list Z)
  (cutoff : Z) :
  cutoff < 0 -> List.length post_titles = List.length deltas ->
  exists fig,
    line_plot post_titles deltas cutoff = Ok fig
    /\ fig_callout fig
       = if 0 <? len deltas then py_str (Z.abs (last deltas 0))
         else "+" ++ py_str (Z.abs cutoff).
Proof.
  intros Hcut Hlen. unfold line_plot.
  destruct (py_max_ok (map (counter_get (Counter deltas)) (py_range cutoff 0)))
    as (m & ->).
  { rewrite py_range_cons by exact Hcut. discriminate. }
  cbn [bind].
  destruct (annotate_ok post_titles deltas 2 Hlen (Counter deltas)
              (inject_Z m + (1 # 5) * inject_Z (len (Counter deltas)) + (1 # 5))%Q)
    as (anns & ->).
  cbn [bind].
  assert (Hint : exists days,
             py_int (if 0 <? len deltas
                     then py_str (Z.abs (last deltas 0))
                     else "+" ++ py_str (Z.abs cutoff)) = Ok days).
  { destruct (0 <? len deltas).
    - eexists. apply (py_int_py_str _ (Z.abs_nonneg _)).
    - eexists. apply (py_int_py_str _ (Z.abs_nonneg _)). }
  destruct Hint as (days & ->). cbn [bind]. eexists. split; reflexivity.
Qed.

Lemma filter_titles_result (post_titles : list string) (deltas : list Z)
  (cutoff : Z) :
  match filter_titles post_titles deltas cutoff with
  | Ok (titles, offsets) =>
      offsets <> []
      /\ List.length titles = List.length offsets
      /\ (List.length titles
          <= Nat.min (List.length post_titles) (List.length deltas))%nat
  | Raise e => e = ValueError /\ kept_pairs post_titles deltas cutoff = []
  end.
Proof.
  rewrite filter_titles_kept.
  assert (Hlen : (List.length (kept_pairs post_titles deltas cutoff)
                  <= Nat.min (List.length post_titles) (List.length deltas))%nat).
  { unfold kept_pairs. rewrite length_map, <- length_combine.
    apply filter_length_le. }
  pose proof (sorted_perm snd (kept_pairs post_titles deltas cutoff)) as Hp.
  apply Permutation_length in Hp.
  destruct (kept_pairs post_titles deltas cutoff) as [|p kept]; [now split|].
  cbv beta iota zeta. rewrite !length_map. split; [|split; [reflexivity|lia]].
  intro E. apply (f_equal (@List.length Z)) in E.
  rewrite length_map, Hp in E. discriminate E.
Qed.


(** X12.  A run that saves a figure has printed its five lines; at least
    one post was kept and no more than were found; and the callout is the
    number of days to the newest kept post, never the form with [+]. *)
Theorem main_saves_figure (w : world) (out : list string) (fig : figure) :
  main w = (out, Ok fig) ->
  exists posts titles offsets,
    list_posts (files w) default_post_path = Ok posts
    /\ prepare w posts = Ok (titles, offsets)
    /\ out = [py_str (len posts) ++ " Posts found!";
              py_str (len titles) ++ " Posts after filtering";
              "Making plot..."; "Saving plot..."; "Done"]
    /\ 1 <= len titles <= len posts
    /\ fig_callout fig = py_str (Z.abs (last offsets 0)).
Proof.
  unfold main. intro H.
  destruct (list_posts (files w) default_post_path) as [posts|e];
    [|discriminate H].
  destruct (prepare w posts) as [[titles offsets]|e] eqn:Hprep;
    [|discriminate H].
  exists posts, titles, offsets.
  pose proof Hprep as Hprep0. unfold prepare in Hprep.
  destruct (extract_dates posts) as [dates|e] eqn:Hdates; [|discriminate Hprep].
  cbn [bind] in Hprep.
  destruct (extract_titles (files w) posts) as [titles0|e] eqn:Htitles;
    [|discriminate Hprep].
  cbn [bind] in Hprep.
  apply comprehension_length in Hdates, Htitles.
  pose proof (filter_titles_result titles0 (timedelta_dates dates (today w))
                default_cutoff) as Hres.
  rewrite Hprep in Hres. destruct Hres as (Hne & Hlen & Hle).
  destruct (line_plot_returns titles offsets default_cutoff) as (fig' & Hfig & Hcall);
    [reflexivity|exact Hlen|].
  rewrite Hfig in H. injection H as <- <-.
  split; [reflexivity|]. split; [exact Hprep0|]. split; [reflexivity|]. split.
  - unfold len. destruct titles as [|t titles];
      [destruct offsets; [contradiction|discriminate Hlen]|].
    cbn [List.length] in *. lia.
  - rewrite Hcall.
    replace (0 <? len offsets) with true; [reflexivity|].
    symmetry. apply Z.ltb_lt. unfold len.
    destruct offsets; [contradiction|cbn [List.length]; lia].
Qed.

Lemma main_saves_figure_witness :
  exists fig posts titles offsets,
    main two_posts
    = (["2 Posts found!"; "2 Posts after filtering"; "Making plot...";
        "Saving plot..."; "Done"], Ok fig)
    /\ list_posts (files two_posts) default_post_path = Ok posts
    /\ prepare two_posts posts = Ok (titles, offsets)
    /\ 1 <= len titles <= len posts
    /\ fig_callout fig = py_str (Z.abs (last offsets 0)).
Proof.
  destruct (main two_posts) as [out [fig|e]] eqn:E; [|vm_compute in E; discriminate E].
  destruct (main_saves_figure two_posts out fig E)
    as (posts & titles & offsets & H1 & H2 & H3 & H4 & H5).
  exists fig, posts, titles, offsets.
  assert (Hout : out = ["2 Posts found!"; "2 Posts after filtering";
                        "Making plot..."; "Saving plot..."; "Done"])
    by (vm_compute in E; now injection E as <- _).
  rewrite <- Hout. split; [reflexivity|]. tauto.
Defined.



(** ** extract_title and extract_titles: more on the title *)

(** X14.  [extract_title] looks at the first twelve lines only: two posts
    whose first twelve lines agree get the same title, whatever
    follows. *)
Theorem extract_title_twelve_lines_only
  (fs1 fs2 : filesystem) (post1 post2 base1 base2 text1 text2 : string) :
  file_text fs1 (os_path_join base1 post1) = Some text1 ->
  file_text fs2 (os_path_join base2 post2) = Some text2 ->
  firstn 12 (readlines text1) = firstn 12 (readlines text2) ->
  extract_title fs1 post1 base1 = extract_title fs2 post2 base2.
Proof.
  intros H1 H2 Hlines.
  rewrite (extract_title_text _ _ _ _ H1), (extract_title_text _ _ _ _ H2).
  rewrite !title_of_text_lines. unfold title_line. now rewrite Hlines.
Qed.

Lemma extract_title_twelve_lines_only_witness :
  extract_title (only_text (blank_lines 12 ++ "title: Late")) "p.md" "_posts/"
  = extract_title (only_text (blank_lines 12)) "q.md" "_posts/".
Proof.
  apply (extract_title_twelve_lines_only
           (only_text (blank_lines 12 ++ "title: Late"))
           (only_text (blank_lines 12)) "p.md" "q.md" "_posts/" "_posts/"
           (blank_lines 12 ++ "title: Late") (blank_lines 12));
    reflexivity.
Defined.

Lemma last_char_cons (c : ascii) (s : string) :
  s <> "" -> last_char (String c s) = last_char s.
Proof.
  destruct s; [contradiction|reflexivity].
Qed.

Lemma last_char_app (a b : string) :
  b <> "" -> last_char (a ++ b) = last_char b.
Proof.
  intro Hb. induction a as [|c a IH]; [reflexivity|].
  cbn [append]. rewrite last_char_cons; [exact IH|].
  destruct a; [exact Hb|discriminate].
Qed.

Lemma last_char_some (s : string) : s <> "" -> exists c, last_char s = Some c.
Proof.
  induction s as [|c s IH]; [contradiction|]. intros _.
  destruct s as [|c' s]; [now exists c|].
  rewrite last_char_cons by discriminate. apply IH. discriminate.
Qed.

Lemma rstrip_ends (s : string) : rstrip s = "" \/ ends_visible (rstrip s).
Proof.
  induction s as [|c s IH]; [now left|]. cbn [rstrip].
  destruct (rstrip s) as [|c' r].
  - destruct (is_space c) eqn:E; [now left|]. right. now exists c.
  - right. destruct IH as [IH|(x & Hx & Hs)]; [discriminate IH|].
    exists x. rewrite last_char_cons by discriminate. now split.
Qed.

Lemma prefix_split (p s : string) :
  prefix p s = true -> exists rest, s = p ++ rest.
Proof.
  revert s; induction p as [|a p IH]; intros s H; [now exists s|].
  destruct s as [|b s]; [discriminate H|].
  rewrite prefix_cons in H. apply andb_prop in H. destruct H as [Hab H].
  apply Ascii.eqb_eq in Hab. subst b.
  destruct (IH s H) as (rest & ->). now exists rest.
Qed.

(** Deleting a pattern keeps the last character, when the pattern does
    not end in it. *)
Lemma re_sub_del_last (init : string) (lastp c : ascii) (n : nat) :
  forall s : string,
    (String.length s <= n)%nat ->
    last_char s = Some c -> c <> lastp ->
    last_char (re_sub_del (init ++ String lastp "") 0 s) = Some c.
Proof.
  set (pat := init ++ String lastp "").
  assert (Hpat : exists p0 pat', pat = String p0 pat').
  { unfold pat. destruct init; cbn; eauto. }
  destruct Hpat as (p0 & pat' & Hpat).
  induction n as [|n IH]; intros s Hlen Hlast Hc.
  - destruct s; [discriminate Hlast|cbn in Hlen; lia].
  - destruct s as [|x s1]; [discriminate Hlast|].
    cbn [re_sub_del]. destruct (prefix pat (String x s1)) eqn:Hp.
    + destruct (prefix_split _ _ Hp) as (rest & Hs).
      rewrite Hpat in Hs. cbn [append] in Hs. injection Hs as -> ->.
      replace (String.length pat - 1)%nat with (String.length pat')
        by (rewrite Hpat; cbn; lia).
      rewrite re_sub_del_skip.
      assert (Hrest : rest <> "").
      { intros ->. change (String p0 (pat' ++ "")) with (String p0 pat' ++ "") in Hlast.
        rewrite <- Hpat in Hlast. unfold pat in Hlast.
        rewrite string_app_assoc in Hlast.
        rewrite last_char_app in Hlast by discriminate.
        cbn in Hlast. congruence. }
      apply IH; [|now rewrite <- (last_char_app (String p0 pat')) by exact Hrest|exact Hc].
      cbn [String.length] in Hlen. rewrite string_app_length in Hlen. lia.
    + destruct s1 as [|y s2]; [exact Hlast|].
      rewrite last_char_cons in Hlast by discriminate.
      assert (Hr : last_char (re_sub_del pat 0 (String y s2)) = Some c)
        by (apply IH; [cbn in Hlen |- *; lia|exact Hlast|exact Hc]).
      rewrite last_char_cons; [exact Hr|].
      intro E. rewrite E in Hr. discriminate Hr.
Qed.

(** X15.  The title that [extract_title] returns for a post that can be
    opened is never empty and never ends in whitespace. *)
Theorem extract_title_ends_visible (fs : filesystem)
  (post base_dir text : string) :
  file_text fs (os_path_join base_dir post) = Some text ->
  exists title,
    extract_title fs post base_dir = Ok title /\ ends_visible title.
Proof.
  intro Hfile. rewrite (extract_title_text _ _ _ _ Hfile).
  eexists. split; [reflexivity|].
  rewrite title_of_text_lines.
  destruct (title_line 12 text) as [line|] eqn:Hline;
    [|exists "!"%char; now split].
  unfold title_line in Hline. apply find_some in Hline.
  destruct Hline as [_ Htitle]. apply has_title_strip in Htitle.
  destruct (rstrip_ends (lstrip line)) as [E|(c & Hc & Hs)].
  - unfold strip in Htitle. rewrite E in Htitle. discriminate Htitle.
  - exists c. split; [|exact Hs].
    apply (re_sub_del_last "title:" " " c (String.length (strip line)));
      [lia|exact Hc|].
    intros ->. discriminate Hs.
Qed.

Lemma extract_title_ends_visible_witness :
  exists title,
    extract_title (only_text ("title:   Padded  " ++ blank_lines 1))
                  "p.md" "_posts/" = Ok title
    /\ ends_visible title.
Proof.
  apply (extract_title_ends_visible
           (only_text ("title:   Padded  " ++ blank_lines 1)) "p.md" "_posts/"
           ("title:   Padded  " ++ blank_lines 1)).
  reflexivity.
Defined.



(** ** From the filter to the figure *)

Lemma filter_length_perm {A : Type} (f : A -> bool) (l l' : list A) :
  Permutation l l' ->
  List.length (filter f l) = List.length (filter f l').
Proof.
  induction 1 as [|x l l' Hp IH|x y l|l l' l'' Hp1 IH1 Hp2 IH2]; cbn [filter].
  - reflexivity.
  - destruct (f x); cbn [List.length]; now rewrite IH.
  - destruct (f x), (f y); reflexivity.
  - now rewrite IH1.
Qed.

Lemma filter_map_length {A B : Type} (g : B -> bool) (h : A -> B) (l : list A) :
  List.length (filter g (map h l))
  = List.length (filter (fun a => g (h a)) l).
Proof.
  induction l as [|a l IH]; cbn [map filter]; [reflexivity|].
  destruct (g (h a)); cbn [List.length]; now rewrite IH.
Qed.

Lemma filter_filter_length {A : Type} (f g : A -> bool) (l : list A) :
  List.length (filter f (filter g l))
  = List.length (filter (fun a => g a && f a) l).
Proof.
  induction l as [|a l IH]; cbn [filter]; [reflexivity|].
  destruct (g a); cbn [filter andb]; [|exact IH].
  destruct (f a); cbn [List.length]; now rewrite IH.
Qed.

(** X17.  In a figure drawn from what [filter_titles] returns, under the
    same cutoff, the counts add up to the number of posts whose day
    difference lies strictly between the cutoff and -1: a kept post of day
    difference -1 or more has offset 0 or more and is in no count, and
    nothing is ever counted over the two oldest offsets of the window. *)
Theorem filter_titles_then_line_plot (post_titles : list string)
  (deltas : list Z) (cutoff : Z) (titles : list string) (offsets : list Z)
  (fig : figure) :
  filter_titles post_titles deltas cutoff = Ok (titles, offsets) ->
  line_plot titles offsets cutoff = Ok fig ->
  total (fig_y_vals fig)
  = len (filter (fun p => (cutoff <? snd p) && (snd p <? -1))
                (combine post_titles deltas))
  /\ occurrences cutoff offsets = 0
  /\ occurrences (cutoff + 1) offsets = 0.
Proof.
  intros Hf Hp. rewrite filter_titles_kept in Hf.
  assert (Hto : titles = map fst (sorted snd (kept_pairs post_titles deltas cutoff))
                /\ offsets
                   = map snd (sorted snd (kept_pairs post_titles deltas cutoff))).
  { destruct (kept_pairs post_titles deltas cutoff); [discriminate Hf|].
    cbv zeta in Hf. now injection Hf as <- <-. }
  destruct Hto as [-> ->]. clear Hf.
  pose proof (sorted_perm snd (kept_pairs post_titles deltas cutoff)) as Hperm.
  apply (Permutation_map snd) in Hperm.
  assert (Hcount : forall g,
             len (filter g (map snd (sorted snd (kept_pairs post_titles deltas cutoff))))
             = len (filter (fun p => (cutoff <? snd p) && g (snd p + 1))
                           (combine post_titles deltas))).
  { intro g. unfold len. rewrite (filter_length_perm g _ _ Hperm).
    unfold kept_pairs. rewrite map_map. cbn [snd].
    now rewrite filter_map_length, filter_filter_length. }
  assert (Hzero : forall g,
             (forall d, cutoff < d -> g (d + 1) = false) ->
             len (filter g (map snd (sorted snd (kept_pairs post_titles deltas cutoff))))
             = 0).
  { intros g Hg. rewrite Hcount. clear Hcount Hperm Hp. unfold len.
    replace (filter _ (combine post_titles deltas)) with (@nil (string * Z));
      [reflexivity|].
    symmetry. induction (combine post_titles deltas) as [|q l IH];
      cbn [filter]; [reflexivity|].
    destruct (cutoff <? snd q) eqn:E; cbn [andb]; [|exact IH].
    apply Z.ltb_lt in E. now rewrite (Hg _ E). }
  apply line_plot_fields in Hp.
  destruct Hp as (m & anns & _ & _ & _ & -> & _ & _).
  split; [|split].
  - rewrite (map_ext _ _ (counter_get_Counter _)), total_occurrences.
    rewrite Hcount. f_equal. apply filter_ext. intros [t d]. cbn [snd].
    destruct (cutoff <? d) eqn:E; cbn [andb]; [|reflexivity].
    apply Z.ltb_lt in E.
    destruct (cutoff <=? d + 1) eqn:E1, (d + 1 <? 0) eqn:E2, (d <? -1) eqn:E3;
      cbn [andb]; try reflexivity;
      rewrite ?Z.leb_le, ?Z.leb_gt, ?Z.ltb_lt, ?Z.ltb_ge in *; lia.
  - apply Hzero. intros d Hd. apply Z.eqb_neq. lia.
  - apply Hzero. intros d Hd. apply Z.eqb_neq. lia.
Qed.

Lemma filter_titles_then_line_plot_witness :
  exists fig,
    line_plot ["old"; "week"; "today"] [-28; -6; 0] (-30) = Ok fig
    /\ total (fig_y_vals fig)
       = len (filter (fun p => (-30 <? snd p) && (snd p <? -1))
                     (combine ["today"; "week"; "old"; "gone"] [-1; -7; -29; -30]))
    /\ occurrences (-30) [-28; -6; 0] = 0
    /\ occurrences (-30 + 1) [-28; -6; 0] = 0.
Proof.
  eexists. split; [reflexivity|].
  apply (filter_titles_then_line_plot
           ["today"; "week"; "old"; "gone"] [-1; -7; -29; -30] (-30)
           ["old"; "week"; "today"] [-28; -6; 0]);
    reflexivity.
Defined.

(** X18.  A post dated on the day of the run, read after midnight, has day
    difference -1; under a cutoff below -1 it is kept with offset 0, and
    the figure of that post alone shows the callout 0 and one annotation at
    offset 0, but no count: offset 0 is outside the window. *)
Theorem post_of_the_day (date compare_date : datetime) (title : string)
  (cutoff : Z) :
  at_midnight date -> clock_time compare_date ->
  year date = year compare_date -> month date = month compare_date ->
  day date = day compare_date ->
  time_of_day compare_date <> 0 ->
  cutoff < -1 ->
  timedelta_dates [date] compare_date = [-1]
  /\ filter_titles [title] (timedelta_dates [date] compare_date) cutoff
     = Ok ([title], [0])
  /\ exists fig,
       line_plot [title] [0] cutoff = Ok fig
       /\ total (fig_y_vals fig) = 0
       /\ map ann_xy (fig_annotations fig) = [(0, 1)]
       /\ fig_callout fig = "0".
Proof.
  intros Hmid Hclock Hy Hm Hd Htime Hcut.
  assert (Hdelta : timedelta_dates [date] compare_date = [-1]).
  { unfold timedelta_dates. cbn [map].
    rewrite (delta_days_floor _ _ Hmid Hclock).
    apply Z.eqb_neq in Htime. rewrite Htime.
    unfold toordinal. rewrite Hy, Hm, Hd. f_equal. lia. }
  split; [exact Hdelta|]. rewrite Hdelta. split.
  - rewrite filter_titles_kept. unfold kept_pairs. cbn [combine filter snd].
    replace (cutoff <? -1) with true by (symmetry; apply Z.ltb_lt; lia).
    reflexivity.
  - destruct (line_plot_returns [title] [0] cutoff) as (fig & Hfig & Hcall);
      [lia|reflexivity|].
    exists fig. split; [exact Hfig|].
    apply line_plot_fields in Hfig.
    destruct Hfig as (m & anns & _ & Hann & _ & -> & _ & ->).
    split; [|split].
    + rewrite (map_ext _ _ (counter_get_Counter _)), total_occurrences.
      cbn [filter]. change (0 <? 0) with false. now rewrite andb_false_r.
    + apply annotate_spec in Hann. now destruct Hann as [-> _].
    + rewrite Hcall. reflexivity.
Qed.

Lemma post_of_the_day_witness :
  timedelta_dates [midnight 2024 1 10]
    {| year := 2024; month := 1; day := 10;
       hour := 8; minute := 30; second := 0; microsecond := 0 |} = [-1]
  /\ filter_titles ["Today"]
       (timedelta_dates [midnight 2024 1 10]
          {| year := 2024; month := 1; day := 10;
             hour := 8; minute := 30; second := 0; microsecond := 0 |}) (-30)
     = Ok (["Today"], [0])
  /\ exists fig,
       line_plot ["Today"] [0] (-30) = Ok fig
       /\ total (fig_y_vals fig) = 0
       /\ map ann_xy (fig_annotations fig) = [(0, 1)]
       /\ fig_callout fig = "0".
Proof.
  apply (post_of_the_day (midnight 2024 1 10)
           {| year := 2024; month := 1; day := 10;
              hour := 8; minute := 30; second := 0; microsecond := 0 |}
           "Today" (-30));
    first [reflexivity | now repeat split | discriminate
          | unfold clock_time; cbn; lia].
Defined.

(** ** date_match: the matched text *)

(** X19.  When [date_match] matches, the matched text is the first ten
    characters of the name, no more; it matches exactly the names with the
    leading pattern. *)
Theorem date_match_group (name : string) :
  match date_match name with
  | Some g =>
      g = substring 0 10 name /\ String.length g = 10%nat
      /\ prefix g name = true /\ date_prefixed name
  | None => ~ date_prefixed name
  end.
Proof.
  destruct (leading_date name) eqn:Hlead.
  - pose proof (proj1 (leading_date_prefixed name) Hlead) as Hshape.
    destruct Hshape
      as (y1 & y2 & y3 & y4 & m1 & m2 & d1 & d2 & rest & -> & Hdig).
    rewrite (date_match_ymd _ _ _ _ _ _ _ _ rest Hdig).
    split; [cbn; now destruct rest|]. split; [reflexivity|].
    split; [apply prefix_app|].
    exists y1, y2, y3, y4, m1, m2, d1, d2, rest. now split.
  - assert (Hnone : date_match name = None).
    { rewrite <- date_match_leading in Hlead. now destruct (date_match name). }
    rewrite Hnone, <- leading_date_prefixed. congruence.
Qed.
